(** * MyFSP image uploader: a model of [ImageUploader.py]

    The development follows the Python module function by function.
    Pure string code (the naming scheme) is embedded as total
    functions on [string]; code that touches the file system, the
    imaging library or the network runs in a small state and exception
    monad over an abstract [Platform], and leaves a trace of the calls
    it made and of the messages it reported.

    Diagnostic output guarded by [self.verbose], the progress lines of
    the worker and the widgets of the window do not influence any
    control flow and are left out of the traces. *)

From Stdlib Require Import List String Ascii Bool Arith NArith ZArith Lia.
From Stdlib Require Import DecimalString.
Import ListNotations.
Local Open Scope string_scope.

(** ** Python string operations used by the module

    A [str] is held as the bytes of its UTF-8 encoding.  The
    operations below cut a text at ASCII characters only, so that a
    position in bytes is the position of a character. *)

Module PyStr.

(** [s[n:]] *)
Fixpoint drop (n : nat) (s : string) : string :=
  match n, s with
  | O, _ => s
  | S _, EmptyString => EmptyString
  | S n', String _ s' => drop n' s'
  end.

(** [s[:n]] *)
Fixpoint take (n : nat) (s : string) : string :=
  match n, s with
  | O, _ => EmptyString
  | S _, EmptyString => EmptyString
  | S n', String c s' => String c (take n' s')
  end.

(** [s.startswith(p)] *)
Definition startswith (s p : string) : bool := String.prefix p s.

(** [s.endswith(p)] *)
Definition endswith (s p : string) : bool :=
  (String.length p <=? String.length s)%nat
  && String.eqb (drop (String.length s - String.length p) s) p.

(** [p in s] *)
Fixpoint contains (s p : string) : bool :=
  if String.prefix p s then true
  else match s with
       | EmptyString => false
       | String _ s' => contains s' p
       end.

(** [s.rfind(c)], with [None] for Python's [-1]. *)
Fixpoint rfind (c : ascii) (s : string) : option nat :=
  match s with
  | EmptyString => None
  | String a s' =>
      match rfind c s' with
      | Some i => Some (S i)
      | None => if Ascii.eqb a c then Some 0 else None
      end
  end.

(** [s.rstrip(c)] *)
Fixpoint rstrip (c : ascii) (s : string) : string :=
  match s with
  | EmptyString => EmptyString
  | String a s' =>
      match rstrip c s' with
      | EmptyString => if Ascii.eqb a c then EmptyString else String a EmptyString
      | r => String a r
      end
  end.

(** [c * n] *)
Fixpoint replicate (n : nat) (c : ascii) : string :=
  match n with
  | O => EmptyString
  | S n' => String c (replicate n' c)
  end.

(** [c in "0123456789"]: the ten ASCII digits. *)
Definition is_digit (c : ascii) : bool :=
  let n := nat_of_ascii c in (48 <=? n)%nat && (n <=? 57)%nat.

(** [chr(cp).encode()]: the bytes of the code point [cp]. *)
Definition utf8 (cp : N) : string :=
  let byte (n : N) := String (ascii_of_N n) EmptyString in
  if (cp <? 128)%N then byte cp
  else if (cp <? 2048)%N then byte (192 + cp / 64)%N ++ byte (128 + cp mod 64)%N
  else if (cp <? 65536)%N then
    byte (224 + cp / 4096)%N ++ byte (128 + (cp / 64) mod 64)%N ++ byte (128 + cp mod 64)%N
  else
    byte (240 + cp / 262144)%N ++ byte (128 + (cp / 4096) mod 64)%N
      ++ byte (128 + (cp / 64) mod 64)%N ++ byte (128 + cp mod 64)%N.

Definition lower_ascii (c : ascii) : ascii :=
  let n := nat_of_ascii c in
  if (65 <=? n)%nat && (n <=? 90)%nat then ascii_of_nat (n + 32) else c.

(** [s.lower()] on ASCII text *)
Fixpoint lower (s : string) : string :=
  match s with
  | EmptyString => EmptyString
  | String c s' => String (lower_ascii c) (lower s')
  end.

(** [sep.join(l)] *)
Definition join (sep : string) (l : list string) : string := String.concat sep l.

(** ["{}".format(n)] for an integer *)
Definition of_Z (z : Z) : string := NilZero.string_of_int (Z.to_int z).

(** Decimal rendering of [n], zero padded on the left to [width]. *)
Definition zero_padded (width n : nat) : string :=
  let d := NilZero.string_of_uint (Nat.to_uint n) in
  replicate (width - String.length d) "0"%char ++ d.

End PyStr.

(** ** The fragment of Python's [re] that the naming scheme uses

    A pattern is a sequence of items.  [match_here] is the backtracking
    matcher anchored at the start of its input and answers with the
    length of the match in bytes; a bounded repetition is greedy, it
    tries the longest run first and gives characters back one at a
    time.  [search] is [re.search]: the match at the leftmost position
    where one exists.  In a [str] pattern [\d] matches every decimal
    digit of Unicode, of whatever script. *)

Module Re.

Inductive item : Type :=
| Lit (s : string)            (* literal text *)
| Digits (lo hi : nat)        (* \d{lo,hi} *)
| NotFollowedBy (s : string). (* (?!s) *)

Definition pattern := list item.

(** The code points of the digit zero of every script: the decimal
    digits (general category Nd) come in runs of ten, from zero to
    nine.  The table is that of Unicode 14.0, which Python 3.11 has,
    the last interpreter with a Pillow that still knows
    [Image.ANTIALIAS]; an earlier interpreter knows the scripts of an
    earlier version, all of which are among these. *)
Definition decimal_zeros : list N :=
  [48; 1632; 1776; 1984; 2406; 2534; 2662; 2790; 2918; 3046; 3174; 3302;
   3430; 3558; 3664; 3792; 3872; 4160; 4240; 6112; 6160; 6470; 6608; 6784;
   6800; 6992; 7088; 7232; 7248; 42528; 43216; 43264; 43472; 43504; 43600;
   44016; 65296; 66720; 68912; 69734; 69872; 69942; 70096; 70384; 70736;
   70864; 71248; 71360; 71472; 71904; 72016; 72784; 73040; 73120; 92768;
   92864; 93008; 120782; 120792; 120802; 120812; 120822; 123200; 123632;
   125264; 130032]%N.

(** The characters that [\d] matches. *)
Definition decimal_digits : list N :=
  flat_map (fun zero => map (N.add zero) [0; 1; 2; 3; 4; 5; 6; 7; 8; 9]%N) decimal_zeros.

(** The number of bytes of the decimal digit that [s] starts with, and
    0 when it starts with none. *)
Definition digit_width (s : string) : nat :=
  match find (fun cp => PyStr.startswith s (PyStr.utf8 cp)) decimal_digits with
  | Some cp => String.length (PyStr.utf8 cp)
  | None => 0
  end.

(** The widths in bytes of the decimal digits that the text starts
    with, past the first [skip] bytes. *)
Fixpoint digits_from (skip : nat) (s : string) {struct s} : list nat :=
  match s with
  | EmptyString => []
  | String _ s' =>
      match skip with
      | S skip' => digits_from skip' s'
      | O =>
          match digit_width s with
          | O => []
          | S n => S n :: digits_from n s'
          end
      end
  end.

(** How many decimal digits the text starts with. *)
Definition count_digits (s : string) : nat := List.length (digits_from 0 s).

(** The bytes that the first [k] of them take. *)
Definition digit_bytes (k : nat) (s : string) : nat :=
  list_sum (firstn k (digits_from 0 s)).

(** Tries the counts [k], [k-1], ..., [lo] in this order. *)
Fixpoint try_counts (k lo : nat) (cont : nat -> option nat) : option nat :=
  if (k <? lo)%nat then None
  else match cont k with
       | Some m => Some m
       | None => match k with
                 | O => None
                 | S k' => try_counts k' lo cont
                 end
       end.

Fixpoint match_here (p : pattern) (s : string) : option nat :=
  match p with
  | [] => Some 0
  | Lit l :: rest =>
      if PyStr.startswith s l
      then option_map (Nat.add (String.length l))
                      (match_here rest (PyStr.drop (String.length l) s))
      else None
  | NotFollowedBy l :: rest =>
      if PyStr.startswith s l then None else match_here rest s
  | Digits lo hi :: rest =>
      try_counts (Nat.min hi (count_digits s)) lo
                 (fun k => option_map (Nat.add (digit_bytes k s))
                                      (match_here rest (PyStr.drop (digit_bytes k s) s)))
  end.

(** [re.search(p, s).group(0)], or [None] when nothing matches. *)
Fixpoint search (p : pattern) (s : string) : option string :=
  match match_here p s with
  | Some n => Some (PyStr.take n s)
  | None => match s with
            | EmptyString => None
            | String _ s' => search p s'
            end
  end.

End Re.

(** ** [os.path] on POSIX paths *)

Module OsPath.

(** [os.path.split] *)
Definition split (p : string) : string * string :=
  let i := match PyStr.rfind "/"%char p with Some k => S k | None => 0 end in
  let head := PyStr.take i p in
  let tail := PyStr.drop i p in
  let head' :=
    if negb (String.eqb head "")
       && negb (String.eqb head (PyStr.replicate (String.length head) "/"%char))
    then PyStr.rstrip "/"%char head
    else head in
  (head', tail).

(** [os.path.join] of two components *)
Definition join (a b : string) : string :=
  if PyStr.startswith b "/" then b
  else if String.eqb a "" || PyStr.endswith a "/" then a ++ b
  else a ++ "/" ++ b.

(** Is some character of [p[i : i+n]] different from a dot? *)
Fixpoint has_non_dot (p : string) (i n : nat) : bool :=
  match n with
  | O => false
  | S n' =>
      match String.get i p with
      | Some c => if Ascii.eqb c "."%char then has_non_dot p (S i) n' else true
      | None => false
      end
  end.

(** [os.path.splitext]: the extension starts at the last dot of the
    last component, unless only dots precede it there. *)
Definition splitext (p : string) : string * string :=
  let filenameIndex := match PyStr.rfind "/"%char p with Some k => S k | None => 0 end in
  match PyStr.rfind "."%char p with
  | Some dotIndex =>
      if (filenameIndex <=? dotIndex)%nat
         && has_non_dot p filenameIndex (dotIndex - filenameIndex)
      then (PyStr.take dotIndex p, PyStr.drop dotIndex p)
      else (p, "")
  | None => (p, "")
  end.

End OsPath.

(** ** Namer: [ImageUploader.get_new_filename] *)

(** The fields of [datetime.datetime] that [strftime] reads. *)
Record datetime : Type := {
  year : nat; month : nat; day : nat;
  hour : nat; minute : nat; second : nat
}.

(** [strftime("%Y%m%d")] *)
Definition strftime_Ymd (t : datetime) : string :=
  PyStr.zero_padded 4 (year t) ++ PyStr.zero_padded 2 (month t) ++ PyStr.zero_padded 2 (day t).

(** [strftime("%H%M%S")] *)
Definition strftime_HMS (t : datetime) : string :=
  PyStr.zero_padded 2 (hour t) ++ PyStr.zero_padded 2 (minute t) ++ PyStr.zero_padded 2 (second t).

(** The pattern ['_page\d{1,6}(?!_page)']. *)
Definition page_pattern : Re.pattern :=
  [Re.Lit "_page"; Re.Digits 1 6; Re.NotFollowedBy "_page"].

Definition page_search (filename : string) : option string :=
  Re.search page_pattern filename.

Definition get_new_filename (timestamp : datetime) (hawb filename : string) : string :=
  if String.eqb filename "" then ""
  else
    "h" ++ hawb ++ "-" ++ strftime_Ymd timestamp ++ "-" ++ strftime_HMS timestamp
        ++ match page_search filename with Some g => g | None => "" end
        ++ (if negb (String.eqb (snd (OsPath.splitext filename)) "")
            then snd (OsPath.splitext filename) else "").

(** The destination [rename_path] computes for [path]. *)
Definition renamed_path (timestamp : datetime) (hawb path : string) : string :=
  let '(directory, filename) := OsPath.split path in
  OsPath.join directory (get_new_filename timestamp hawb filename).

(** ** Effects: exceptions, traces and the platform boundary *)

(** Python exceptions the module can meet.  [ConnectionError],
    [Timeout] and [HTTPError] are those of [requests]; all of
    [requests]' own exceptions derive from [RequestException], which
    derives from [OSError]; [OtherError] stands for any exception
    outside [OSError]. *)
Inductive exn : Type :=
| OSError (description : string)
| ConnectionError (description : string)
| Timeout (description : string)
| HTTPError (status_code : Z) (text : string)
| RequestException (description : string)
| OtherError (description : string).

Definition repr (e : exn) : string :=
  match e with
  | OSError d => "OSError(" ++ d ++ ")"
  | ConnectionError d => "ConnectionError(" ++ d ++ ")"
  | Timeout d => "Timeout(" ++ d ++ ")"
  | HTTPError s _ => "HTTPError(" ++ PyStr.of_Z s ++ ")"
  | RequestException d => "RequestException(" ++ d ++ ")"
  | OtherError d => "Exception(" ++ d ++ ")"
  end.

(** [isinstance(e, OSError)] *)
Definition is_OSError (e : exn) : bool :=
  match e with
  | OtherError _ => false
  | _ => true
  end.

(** How a computation ends: with a value, with a raised exception, or
    not at all: cut off because the model's recursion budget ran out,
    or blocked for ever in a call that does not return. *)
Inductive result (A : Type) : Type :=
| Ret (a : A)
| Raise (e : exn)
| OutOfFuel.
Arguments Ret {A} a.
Arguments Raise {A} e.
Arguments OutOfFuel {A}.

(** How a call into a library or the operating system ends. *)
Inductive outcome (A : Type) : Type :=
| Returned (a : A)
| Raised (e : exn).
Arguments Returned {A} a.
Arguments Raised {A} e.

Record response : Type := { status : Z; body : string }.

(** How waiting for the worker ends.  [Queue.join] returns once every
    task that was put has been marked done, and blocks for ever when
    the worker has stopped before that. *)
Inductive join_outcome : Type :=
| Joined
| Blocked.

(** What a run leaves behind, in order: library calls and reports. *)
Inductive event : Type :=
| Stderr (line : string)                       (* print(..., file=sys.stderr) *)
| Stdout (line : string)                       (* print(..., file=sys.stdout) *)
| QErrorMessage (message : string)             (* QErrorMessage(self).showMessage *)
| QMessageBox (message : string)               (* QMessageBox(self).setText; show *)
| EnableControls
| OsWalk (directory : string)
| OsRenames (old new : string)
| ShutilRmtree (path : string)
| OsStat (path : string)
| ImageOpen (path : string)
| ThumbnailSave (path : string) (downsize : Z * Z)
| SaveTiff (source target : string)
| SessionSend (path : string)
| ThreadStart
| QueuePut (hawb path : string)
| ThreadJoin.

(** The libraries and the operating system under the module.  Each
    operation may change the world and may raise. *)
Class Platform : Type := {
  World : Type;
  (** [os.walk] flattened to the files below a directory, as
      [get_all_files] collects them *)
  os_walk_files : string -> World -> outcome (list string) * World;
  os_path_exists : string -> World -> bool;
  os_renames : string -> string -> World -> outcome unit * World;
  shutil_rmtree : string -> World -> outcome unit * World;
  (** [os.stat(path).st_size] *)
  os_stat_st_size : string -> World -> outcome Z * World;
  (** [Image.open(path).size] *)
  image_open_size : string -> World -> outcome (Z * Z) * World;
  (** [img.thumbnail(downsize, Image.ANTIALIAS); img.save(path)] *)
  image_thumbnail_save : string -> Z * Z -> World -> outcome unit * World;
  (** [Image.open(src).save(dst, format="TIFF", quality=85)] *)
  image_save_tiff : string -> string -> World -> outcome unit * World;
  (** opening the file, preparing the multipart request and
      [requests.Session().send] *)
  session_send : string -> World -> outcome response * World;
  (** [tasks_queue.join(); runner_thread.quit(); runner_thread.wait()],
      given the tasks that were put; what the worker did in the
      meantime shows in the world that is left *)
  thread_join : list (string * string) -> World -> join_outcome * World
}.

Section Monad.
Context {P : Platform}.

Definition M (A : Type) : Type := World -> result A * World * list event.

Definition ret {A} (a : A) : M A := fun w => (Ret a, w, []).

Definition bind {A B} (m : M A) (f : A -> M B) : M B :=
  fun w =>
    match m w with
    | (Ret a, w1, t1) => let '(r, w2, t2) := f a w1 in (r, w2, (t1 ++ t2)%list)
    | (Raise e, w1, t1) => (Raise e, w1, t1)
    | (OutOfFuel, w1, t1) => (OutOfFuel, w1, t1)
    end.

Definition raise {A} (e : exn) : M A := fun w => (Raise e, w, []).

Definition out_of_fuel {A} : M A := fun w => (OutOfFuel, w, []).

Definition emit (ev : event) : M unit := fun w => (Ret tt, w, [ev]).

(** A library call, recorded in the trace. *)
Definition call {A} (ev : event) (op : World -> outcome A * World) : M A :=
  fun w =>
    match op w with
    | (Returned a, w1) => (Ret a, w1, [ev])
    | (Raised e, w1) => (Raise e, w1, [ev])
    end.

(** [try: m  except ...: handler].  The handler answers [None] for an
    exception that no [except] clause names. *)
Definition try_except {A} (m : M A) (handler : exn -> option (M A)) : M A :=
  fun w =>
    match m w with
    | (Raise e, w1, t1) =>
        match handler e with
        | Some h => let '(r, w2, t2) := h w1 in (r, w2, (t1 ++ t2)%list)
        | None => (Raise e, w1, t1)
        end
    | other => other
    end.

End Monad.

Notation "x <- m ;; k" := (bind m (fun x => k))
  (at level 61, m at next level, right associativity).
Notation "m ;; k" := (bind m (fun _ => k))
  (at level 61, right associativity).

Section Uploader.
Context {P : Platform}.

Fixpoint mapM {A B} (f : A -> M B) (l : list A) : M (list B) :=
  match l with
  | [] => ret []
  | a :: l' => b <- f a ;; bs <- mapM f l' ;; ret (b :: bs)
  end.

(** The state of an [ImageUploader] object. *)
Record ImageUploader : Type := {
  silent : bool;
  verbose : bool;
  timestamp : datetime;
  hawb_number : string;
  original_image_path : string;
  bg_results : list (Z * string);
  num_bg_tasks : Z;
  tasks_queue : list (string * string)
}.

Definition FILE_SIZE_LIMIT : Z := 1000000.
Definition MAX_RESIZE_PASSES : Z := 50.

(** [ImageUploader.error] *)
Definition error (message : string) (exception : option exn) (silent_ : bool) : M unit :=
  emit (if negb silent_ then QErrorMessage message else Stderr message) ;;
  match exception with
  | Some e => emit (Stderr (repr e))
  | None => ret tt
  end.

(** [ImageUploader.success] *)
Definition success (self : ImageUploader) (message : string) : M unit :=
  emit (if negb (silent self) then QMessageBox message else Stdout message).

(** [requests.Response.raise_for_status] *)
Definition raise_for_status (r : response) : M unit :=
  if ((400 <=? status r) && (status r <? 600))%Z
  then raise (HTTPError (status r) (body r))
  else ret tt.

(** [ImageUploader.post] *)
Definition post (image_path : string) : M bool :=
  response <- call (SessionSend image_path) (session_send image_path) ;;
  if (status response =? 200)%Z then ret true
  else raise_for_status response ;; ret false.

(** [int(floor(x * 0.80))].  The product is a double; for a pixel
    count below 2^52 its floor is the floor of [4x/5]. *)
Definition downsize_dim (x : Z) : Z := (x * 4 / 5)%Z.

(** One turn of the body of the [while] loop of [compress_image];
    answers with the re-measured size. *)
Definition compress_pass (image_path : string) : M Z :=
  size <- call (ImageOpen image_path) (image_open_size image_path) ;;
  call (ThumbnailSave image_path (downsize_dim (fst size), downsize_dim (snd size)))
       (image_thumbnail_save image_path (downsize_dim (fst size), downsize_dim (snd size))) ;;
  call (OsStat image_path) (os_stat_st_size image_path).

(** The [while] loop of [compress_image]; answers with the final
    values of [passes] and [image_file_size]. *)
Fixpoint compress_loop (fuel : nat) (image_path : string) (passes image_file_size : Z)
  : M (Z * Z) :=
  if ((image_file_size >? FILE_SIZE_LIMIT) && negb (passes >? MAX_RESIZE_PASSES))%Z
  then match fuel with
       | O => out_of_fuel
       | S fuel' =>
           size <- compress_pass image_path ;;
           compress_loop fuel' image_path (passes + 1) size
       end
  else ret (passes, image_file_size).

(** [compress_image] up to the end of its loop, with its two locals. *)
Definition compress_image_locals (fuel : nat) (image_path : string) : M (Z * Z) :=
  image_file_size <- call (OsStat image_path) (os_stat_st_size image_path) ;;
  compress_loop fuel image_path 0 image_file_size.

(** Turns of the loop that always suffice (see [compress_loop_fuel]). *)
Definition compress_fuel : nat := 64.

(** [ImageUploader.compress_image] *)
Definition compress_image (image_path : string) : M unit :=
  compress_image_locals compress_fuel image_path ;; ret tt.

Definition size_limit_exceeded (status_code : Z) (text : string) : bool :=
  (status_code =? 500)%Z && PyStr.contains text "SizeLimitExceededException:".

(** [ImageUploader.upload_image]; [depth] bounds the nesting of the
    recursive retries. *)
Fixpoint upload_image (depth : nat) (image_path : string) : M bool :=
  match depth with
  | O => out_of_fuel
  | S depth' =>
      try_except (post image_path) (fun e =>
        match e with
        | ConnectionError _ =>
            Some (error "Could not connect to the Image Database" (Some e) true ;;
                  ret false)
        | Timeout _ =>
            Some (error "Timed out trying to connect to the Image Database" (Some e) true ;;
                  ret false)
        | HTTPError status_code text =>
            Some (if size_limit_exceeded status_code text
                  then compress_image image_path ;; upload_image depth' image_path
                  else error ("Server Response: Error " ++ PyStr.of_Z status_code)
                             (Some e) true ;;
                       ret false)
        | RequestException _ =>
            Some (error "An error occurred while preparing the request for the Image Database"
                        (Some e) true ;;
                  ret false)
        | _ => None
        end)
  end.

(** [ImageUploader.convert_image]; [None] is Python's [False]. *)
Definition convert_image (image_path : string) : M (option string) :=
  if PyStr.endswith (PyStr.lower image_path) ".tif"
     || PyStr.endswith (PyStr.lower image_path) ".tiff"
  then ret (Some image_path)
  else
    let converted_image_path := fst (OsPath.splitext image_path) ++ ".tif" in
    try_except
      (call (SaveTiff image_path converted_image_path)
            (image_save_tiff image_path converted_image_path) ;;
       ret (Some converted_image_path))
      (fun e =>
         if is_OSError e
         then Some (error "OS Error during conversion" (Some e) true ;; ret None)
         else None).

(** The inner function [rename] of [rename_path]. *)
Definition rename (path renamed : string) : M string :=
  try_except
    (call (OsRenames path renamed) (os_renames path renamed) ;; ret renamed)
    (fun e =>
       if is_OSError e
       then Some (call (ShutilRmtree renamed) (shutil_rmtree renamed) ;;
                  call (OsRenames path renamed) (os_renames path renamed) ;;
                  ret renamed)
       else None).

(** [ImageUploader.rename_path]; [None] is Python's [False]. *)
Definition rename_path (self : ImageUploader) (path : string) : M (option string) :=
  let renamed := renamed_path (timestamp self) (hawb_number self) path in
  try_except
    (r <- rename path renamed ;; ret (Some r))
    (fun err =>
       Some (error ("Could not rename " ++ path ++ " to " ++ renamed) (Some err) true ;;
             ret None)).

(** [ImageUploader.get_all_files] *)
Definition get_all_files (directory : string) : M (list string) :=
  call (OsWalk directory) (os_walk_files directory).

(** [[f for f in paths if f]] on values that are a string or [False]. *)
Fixpoint truthy (paths : list (option string)) : list string :=
  match paths with
  | [] => []
  | Some f :: rest => if String.eqb f "" then truthy rest else f :: truthy rest
  | None :: rest => truthy rest
  end.

(** [ImageUploader.queue_images_for_upload] *)
Definition queue_images_for_upload (self : ImageUploader) (image_paths : list string)
  : M (Z * ImageUploader) :=
  mapM (fun x => emit (QueuePut (hawb_number self) x)) image_paths ;;
  ret (0%Z,
       {| silent := silent self; verbose := verbose self; timestamp := timestamp self;
          hawb_number := hawb_number self;
          original_image_path := original_image_path self;
          bg_results := [];
          num_bg_tasks := Z.of_nat (List.length image_paths);
          tasks_queue := (tasks_queue self
                          ++ map (fun x => (hawb_number self, x)) image_paths)%list |}).

(** [ImageUploader.start_uploader_thread]: the worker and its signals
    are wired, and the thread is started. *)
Definition start_uploader_thread (self : ImageUploader) : M unit :=
  emit ThreadStart.

(** [ImageUploader.wait_on_uploader_thread]: the queue is joined, then
    the thread is told to quit and is waited for.  No field of the
    object is assigned; [bg_results] is written by
    [queue_images_for_upload] and by the slot [result_listener] only,
    and none of the three calls runs a slot. *)
Definition wait_on_uploader_thread (self : ImageUploader) : M unit :=
  fun w =>
    match thread_join (tasks_queue self) w with
    | (Joined, w1) => (Ret tt, w1, [ThreadJoin])
    | (Blocked, w1) => (OutOfFuel, w1, [ThreadJoin])
    end.

(** [[x[1] for x in self.bg_results if x[0] != 0]] *)
Definition failures (results : list (Z * string)) : list string :=
  map snd (filter (fun x => negb (fst x =? 0)%Z) results).

(** The three arms of the conditional of [examine_bg_results]. *)
Inductive verdict : Type := SomeFailed | CouldNotUpload | AllUploaded.

Definition examine (num : Z) : verdict :=
  if (num >? 0)%Z then SomeFailed
  else if (num <? 0)%Z then CouldNotUpload
  else AllUploaded.

(** [ImageUploader.examine_bg_results] *)
Definition examine_bg_results (self : ImageUploader) : M Z :=
  let num := Z.of_nat (List.length (failures (bg_results self))) in
  match examine num with
  | SomeFailed =>
      error ("The following files failed to upload: "
               ++ PyStr.join ", " (failures (bg_results self)))
            None (silent self)
  | CouldNotUpload =>
      error ("Could not upload file " ++ original_image_path self ++ " to MyFSP")
            None (silent self)
  | AllUploaded =>
      success self ("Successfully uploaded " ++ original_image_path self)
  end ;;
  (if negb (silent self) then emit EnableControls else ret tt) ;;
  ret num.

Definition no_images_after (step : string) (self : ImageUploader) : string :=
  "Upload of " ++ original_image_path self
    ++ " failed. There were no more images to process after the " ++ step
    ++ " step. Please check the uploader log for previous errors.".

(** [ImageUploader.process_images] *)
Definition process_images (self : ImageUploader) (images_directory : string)
  : M (Z * ImageUploader) :=
  image_paths <- get_all_files images_directory ;;
  renamed <- mapM (rename_path self) image_paths ;;
  let renamed_image_paths := truthy renamed in
  if (List.length renamed_image_paths =? 0)%nat
  then error (no_images_after "renaming" self) None (silent self) ;; ret (1%Z, self)
  else
    converted <- mapM convert_image renamed_image_paths ;;
    let converted_image_paths := truthy converted in
    if (List.length converted_image_paths =? 0)%nat
    then error (no_images_after "conversion" self) None (silent self) ;; ret (1%Z, self)
    else
      start_uploader_thread self ;;
      queued <- queue_images_for_upload self converted_image_paths ;;
      if silent self
      then wait_on_uploader_thread (snd queued) ;;
           num <- examine_bg_results (snd queued) ;;
           ret (num, snd queued)
      else ret queued.

End Uploader.

(** ** The background worker: [BGRunner.run]

    The worker shares its queue with the thread that fills it, so its
    loop is given as a transition system in which a [put] of the
    producer may come between any two actions of the worker.
    [uploader_run] is [self.uploader.run()] after the two assignments
    that hand it the task. *)

Module BGRunner.

Inductive signal : Type :=
| Result (r : Z) (image : string)   (* self.result.emit((r, image)) *)
| Done (code : Z).                  (* self.done.emit(0) *)

(** Where the worker stands. *)
Inductive control : Type :=
| LoopHead                          (* about to test self.tasks.empty() *)
| Got (hawb image : string)         (* after self.tasks.get() *)
| Finished                          (* run returned *)
| Crashed (e : exn).                (* uploader.run raised *)

Section Run.
Context {W : Type}.
Variable uploader_run : string -> string -> W -> result Z * W.

Record state : Type := {
  tasks : list (string * string);      (* the queue, oldest first *)
  history : list (string * string);    (* every task ever put *)
  emitted : list signal;
  at_ : control;
  world : W
}.

Definition initial (w : W) : state :=
  {| tasks := []; history := []; emitted := []; at_ := LoopHead; world := w |}.

Inductive step : state -> state -> Prop :=
| step_put s task :
    step s {| tasks := tasks s ++ [task]; history := history s ++ [task];
              emitted := emitted s; at_ := at_ s; world := world s |}
| step_break s :
    at_ s = LoopHead -> tasks s = [] ->
    step s {| tasks := []; history := history s;
              emitted := emitted s ++ [Done 0]; at_ := Finished; world := world s |}
| step_get s hawb image rest :
    at_ s = LoopHead -> tasks s = (hawb, image) :: rest ->
    step s {| tasks := rest; history := history s;
              emitted := emitted s; at_ := Got hawb image; world := world s |}
| step_result s hawb image r w' :
    at_ s = Got hawb image -> uploader_run hawb image (world s) = (Ret r, w') ->
    step s {| tasks := tasks s; history := history s;
              emitted := emitted s ++ [Result r image]; at_ := LoopHead; world := w' |}
| step_crash s hawb image e w' :
    at_ s = Got hawb image -> uploader_run hawb image (world s) = (Raise e, w') ->
    step s {| tasks := tasks s; history := history s;
              emitted := emitted s; at_ := Crashed e; world := w' |}.

Inductive reachable (w0 : W) : state -> Prop :=
| reach_initial : reachable w0 (initial w0)
| reach_step s s' : reachable w0 s -> step s s' -> reachable w0 s'.

(** The images of the outcome signals, in the order of emission. *)
Fixpoint images (l : list signal) : list string :=
  match l with
  | [] => []
  | Result _ image :: l' => image :: images l'
  | Done _ :: l' => images l'
  end.

(** What holds of the worker at every moment: the outcome signals
    are those of the tasks taken off the queue so far, in the order
    they were put, the task in hand and the queue make up the rest of
    what was put, and a [Done] is emitted when [run] returns and at
    no other time. *)
Definition invariant (s : state) : Prop :=
  exists taken,
    images (emitted s) = map snd taken
    /\ match at_ s with
       | LoopHead => history s = (taken ++ tasks s)%list
                     /\ Forall (fun sig => exists r image, sig = Result r image) (emitted s)
       | Got hawb image =>
           history s = (taken ++ (hawb, image) :: tasks s)%list
           /\ Forall (fun sig => exists r image, sig = Result r image) (emitted s)
       | Finished =>
           history s = (taken ++ tasks s)%list
           /\ exists l, emitted s = (l ++ [Done 0%Z])%list
                        /\ Forall (fun sig => exists r image, sig = Result r image) l
       | Crashed _ =>
           (exists task, history s = (taken ++ task :: tasks s)%list)
           /\ Forall (fun sig => exists r image, sig = Result r image) (emitted s)
       end.

(** The loop run alone on a queue that was filled beforehand:
    the signals it emits, how it ends, and the world it leaves. *)
Fixpoint run (queue : list (string * string)) (w : W) : list signal * control * W :=
  match queue with
  | [] => ([Done 0%Z], Finished, w)
  | (hawb, image) :: rest =>
      match uploader_run hawb image w with
      | (Ret r, w') =>
          let '(l, c, w'') := run rest w' in (Result r image :: l, c, w'')
      | (Raise e, w') => ([], Crashed e, w')
      | (OutOfFuel, w') => ([], Got hawb image, w')
      end
  end.

End Run.

End BGRunner.

(** ** A simulated platform

    A flat file system, an imaging library whose files weigh a fixed
    part plus three bytes a pixel, and a transport that plays back
    canned outcomes.  The fixed part of a file is what a re-encode
    carries over unchanged: the colour profile and the metadata blocks
    that the TIFF writer copies from the image it was given.  An image
    of any size is opened, as by Pillow before 5.0; from 5.0 on
    [Image.open] refuses an image above 178,956,970 pixels.
    [os.rename] follows the Python documentation: on Unix a file
    replaces a file silently, a non-empty directory or a kind mismatch
    raises; on Windows any existing destination raises.
    [shutil.rmtree] raises on anything that is not a directory. *)

Module Sim.

Inductive node : Type :=
| File (fixed_bytes : Z) (dims : Z * Z)   (* an image *)
| Blob (bytes : Z)                        (* a file that is not an image *)
| Dir.

Record world : Type := {
  posix : bool;
  files : list (string * node);
  transport : list (outcome response)
}.

Definition with_files (w : world) (fs : list (string * node)) : world :=
  {| posix := posix w; files := fs; transport := transport w |}.

Fixpoint lookup (p : string) (fs : list (string * node)) : option node :=
  match fs with
  | [] => None
  | (q, n) :: rest => if String.eqb q p then Some n else lookup p rest
  end.

(** [q] lies strictly below the directory [p]. *)
Definition below (p q : string) : bool := PyStr.startswith q (p ++ "/").

Definition remove_tree (p : string) (fs : list (string * node)) : list (string * node) :=
  filter (fun e => negb (String.eqb (fst e) p || below p (fst e))) fs.

Definition has_children (p : string) (fs : list (string * node)) : bool :=
  existsb (fun e => below p (fst e)) fs.

Definition move_tree (old new : string) (fs : list (string * node)) : list (string * node) :=
  map (fun e =>
         if String.eqb (fst e) old then (new, snd e)
         else if below old (fst e)
              then (new ++ PyStr.drop (String.length old) (fst e), snd e)
              else e)
      (remove_tree new fs).

Definition is_dir (n : node) : bool :=
  match n with
  | Dir => true
  | _ => false
  end.

Definition st_size (n : node) : Z :=
  match n with
  | File fixed (w, h) => (fixed + 3 * w * h)%Z
  | Blob bytes => bytes
  | Dir => 4096%Z
  end.

Definition renames (old new : string) (w : world) : outcome unit * world :=
  match lookup old (files w) with
  | None => (Raised (OSError "FileNotFoundError"), w)
  | Some n =>
      if String.eqb old new then (Returned tt, w)
      else
        match lookup new (files w) with
        | None => (Returned tt, with_files w (move_tree old new (files w)))
        | Some m =>
            if posix w then
              match is_dir n, is_dir m with
              | false, false => (Returned tt, with_files w (move_tree old new (files w)))
              | false, true => (Raised (OSError "IsADirectoryError"), w)
              | true, false => (Raised (OSError "NotADirectoryError"), w)
              | true, true =>
                  if has_children new (files w)
                  then (Raised (OSError "ENOTEMPTY"), w)
                  else (Returned tt, with_files w (move_tree old new (files w)))
              end
            else (Raised (OSError "FileExistsError"), w)
        end
  end.

Definition rmtree (p : string) (w : world) : outcome unit * world :=
  match lookup p (files w) with
  | Some Dir => (Returned tt, with_files w (remove_tree p (files w)))
  | Some _ => (Raised (OSError "NotADirectoryError"), w)
  | None => (Raised (OSError "FileNotFoundError"), w)
  end.

Definition walk_files (directory : string) (w : world) : outcome (list string) * world :=
  (Returned (map fst (filter (fun e => negb (is_dir (snd e)) && below directory (fst e))
                             (files w))), w).

Definition exists_ (p : string) (w : world) : bool :=
  match lookup p (files w) with Some _ => true | None => false end.

Definition stat_size (p : string) (w : world) : outcome Z * world :=
  match lookup p (files w) with
  | Some n => (Returned (st_size n), w)
  | None => (Raised (OSError "FileNotFoundError"), w)
  end.

Definition open_size (p : string) (w : world) : outcome (Z * Z) * world :=
  match lookup p (files w) with
  | Some (File _ d) => (Returned d, w)
  | Some (Blob _) => (Raised (OSError "cannot identify image file"), w)
  | Some Dir => (Raised (OSError "IsADirectoryError"), w)
  | None => (Raised (OSError "FileNotFoundError"), w)
  end.

Fixpoint replace (p : string) (n : node) (fs : list (string * node)) : list (string * node) :=
  match fs with
  | [] => [(p, n)]
  | (q, m) :: rest => if String.eqb q p then (p, n) :: rest else (q, m) :: replace p n rest
  end.

(** [thumbnail] resizes the image to fit the box it is given; the
    box that [compress_image] asks for has the proportions of the
    image, and the image is given the size of the box (for a square
    image that is exact, otherwise up to the rounding of one side).
    For a box with an empty side the resize raises a [ValueError], and
    the file is left as it was. *)
Definition thumbnail_save (p : string) (d : Z * Z) (w : world) : outcome unit * world :=
  match lookup p (files w) with
  | Some (File fixed _) =>
      if ((0 <? fst d) && (0 <? snd d))%Z
      then (Returned tt, with_files w (replace p (File fixed d) (files w)))
      else (Raised (OtherError "ValueError: height and width must be > 0"), w)
  | Some (Blob _) => (Raised (OSError "cannot identify image file"), w)
  | Some Dir => (Raised (OSError "IsADirectoryError"), w)
  | None => (Raised (OSError "FileNotFoundError"), w)
  end.

Definition save_tiff (src dst : string) (w : world) : outcome unit * world :=
  match lookup src (files w) with
  | Some (File fixed d) => (Returned tt, with_files w (replace dst (File fixed d) (files w)))
  | Some (Blob _) => (Raised (OSError "cannot identify image file"), w)
  | Some Dir => (Raised (OSError "IsADirectoryError"), w)
  | None => (Raised (OSError "FileNotFoundError"), w)
  end.

Definition send (p : string) (w : world) : outcome response * world :=
  match lookup p (files w) with
  | Some Dir => (Raised (OSError "IsADirectoryError"), w)
  | Some _ =>
      match transport w with
      | [] => (Raised (ConnectionError "connection refused"), w)
      | r :: rest => (r, {| posix := posix w; files := files w; transport := rest |})
      end
  | None => (Raised (OSError "FileNotFoundError"), w)
  end.

(** No worker runs in the simulation: nothing is taken from the
    queue, and a join returns only when nothing was put. *)
Definition join (queue : list (string * string)) (w : world) : join_outcome * world :=
  match queue with
  | [] => (Joined, w)
  | _ :: _ => (Blocked, w)
  end.

#[export] Instance platform : Platform := {|
  World := world;
  os_walk_files := walk_files;
  os_path_exists := exists_;
  os_renames := renames;
  shutil_rmtree := rmtree;
  os_stat_st_size := stat_size;
  image_open_size := open_size;
  image_thumbnail_save := thumbnail_save;
  image_save_tiff := save_tiff;
  session_send := send;
  thread_join := join
|}.

Definition t0 : datetime :=
  {| year := 2018; month := 3; day := 7; hour := 9; minute := 5; second := 42 |}.

Definition uploader (hawb : string) (silent_ : bool) : ImageUploader :=
  {| silent := silent_; verbose := false; timestamp := t0; hawb_number := hawb;
     original_image_path := "/in"; bg_results := []; num_bg_tasks := (-1)%Z;
     tasks_queue := [] |}.

(** A scan whose fixed part alone exceeds the size limit. *)
Definition heavy_scan : world :=
  {| posix := true;
     files := [("/in/scan.tif", File 1500000 (4000, 3000)%Z)];
     transport := [] |}.

(** A square scan of 3000 pixels a side with the same fixed part. *)
Definition square_scan : world :=
  {| posix := true;
     files := [("/in/scan.tif", File 1500000 (3000, 3000)%Z)];
     transport := [] |}.

(** A square scan of 240,000 pixels a side with the same fixed part:
    fifty-one times four fifths of its side is still one pixel. *)
Definition vast_scan : world :=
  {| posix := true;
     files := [("/in/scan.tif", File 1500000 (240000, 240000)%Z)];
     transport := [] |}.

(** A file to rename next to a file that already has the new name. *)
Definition occupied (posix_ : bool) : world :=
  {| posix := posix_;
     files := [("/in/a.jpg", File 100 (40, 30)%Z);
               ("/in/h77-20180307-090542.jpg", File 200 (80, 60)%Z)];
     transport := [] |}.

(** A server that answers once with the given status. *)
Definition answering (status_ : Z) (body_ : string) : world :=
  {| posix := true;
     files := [("/in/scan.tif", File 500 (40, 30)%Z)];
     transport := [Returned {| status := status_; body := body_ |}] |}.

(** A large scan, and a server that rejects it once for its size. *)
Definition rejected_once : world :=
  {| posix := true;
     files := [("/in/scan.tif", File 500 (1000, 1000)%Z)];
     transport :=
       [Returned {| status := 500;
                    body := "Traceback: SizeLimitExceededException: the request was rejected" |};
        Returned {| status := 200; body := "stored" |}] |}.


(** The same directory, but the file to rename is gone. *)
Definition vanished : world :=
  {| posix := true;
     files := [("/in/h77-20180307-090542.jpg", Dir);
               ("/in/h77-20180307-090542.jpg/old.tif", File 200 (80, 60)%Z)];
     transport := [] |}.

(** A directory that holds nothing but a text file. *)
Definition not_an_image : world :=
  {| posix := true;
     files := [("/in/notes.txt", Blob 1200)];
     transport := [] |}.

(** A worker whose uploads all succeed and leave the world alone. *)
Definition uploads_ok (hawb image : string) (w : unit) : result Z * unit := (Ret 0%Z, w).

(** The worker after two tasks were put and the queue was drained. *)
Definition drained : BGRunner.state (W := unit) :=
  {| BGRunner.tasks := [];
     BGRunner.history := [("77", "/in/a.tif"); ("77", "/in/b.tif")];
     BGRunner.emitted := [BGRunner.Result 0 "/in/a.tif"; BGRunner.Result 0 "/in/b.tif";
                          BGRunner.Done 0];
     BGRunner.at_ := BGRunner.Finished;
     BGRunner.world := tt |}.

(** Two scans of one batch in one directory. *)
Definition two_scans : world :=
  {| posix := true;
     files := [("/in/a.jpg", File 100 (40, 30)%Z);
               ("/in/b.jpg", File 200 (80, 60)%Z)];
     transport := [] |}.

End Sim.

(** The re-encode passes recorded in a trace. *)
Fixpoint re_encodes (t : list event) : nat :=
  match t with
  | [] => 0
  | ThumbnailSave _ _ :: t' => S (re_encodes t')
  | _ :: t' => re_encodes t'
  end.

(** Does the event start, feed or join the worker thread? *)
Definition worker_event (ev : event) : bool :=
  match ev with
  | ThreadStart | QueuePut _ _ | ThreadJoin => true
  | _ => false
  end.

(** A trace in which the worker plays no part. *)
Definition quiet (t : list event) : Prop :=
  Forall (fun ev => worker_event ev = false) t.

(** The batch-level report of [process_images] that no image is left. *)
Definition batch_report (step : string) (self : ImageUploader) : event :=
  if negb (silent self) then QErrorMessage (no_images_after step self)
  else Stderr (no_images_after step self).

(** ** The per-file pipeline: [ImageUploader.process_image] *)

Section Pipeline.
Context {P : Platform}.

(** [if v:] for a value that is a string or [False]. *)
Definition is_truthy (v : option string) : bool :=
  match v with
  | Some s => negb (String.eqb s "")
  | None => false
  end.

(** ["{}".format(v)] for a value that is a string or [False]. *)
Definition format_path (v : option string) : string :=
  match v with
  | Some s => s
  | None => "False"
  end.

(** [ImageUploader.process_image] *)
Definition process_image (depth : nat) (self : ImageUploader) (path : string) : M Z :=
  renamed <- rename_path self path ;;
  if is_truthy renamed
  then
    converted <- convert_image (format_path renamed) ;;
    if is_truthy converted
    then
      result <- upload_image depth (format_path converted) ;;
      if (result : bool)
      then success self ("Successfully uploaded: " ++ original_image_path self) ;; ret 0%Z
      else error (original_image_path self ++ " upload failed, could not upload "
                    ++ format_path converted) None (silent self) ;;
           ret 1%Z
    else error (original_image_path self ++ " upload failed, could not convert "
                  ++ format_path renamed) None (silent self) ;;
         ret 1%Z
  else error (original_image_path self ++ " upload failed, could not rename " ++ path)
             None (silent self) ;;
       ret 1%Z.

End Pipeline.

(** Does the event write an image in the wire format, or send one? *)
Definition converts (ev : event) : bool :=
  match ev with
  | SaveTiff _ _ => true
  | _ => false
  end.

Definition sends (ev : event) : bool :=
  match ev with
  | SessionSend _ => true
  | _ => false
  end.

(** ** A server that never accepts

    Every file is small, every send is answered with the size-limit
    error. *)

Module Stubborn.

Definition rejection : response :=
  {| status := 500; body := "SizeLimitExceededException: too large" |}.

#[export] Instance platform : Platform := {|
  World := unit;
  os_walk_files := fun _ w => (Returned [], w);
  os_path_exists := fun _ _ => true;
  os_renames := fun _ _ w => (Returned tt, w);
  shutil_rmtree := fun _ w => (Returned tt, w);
  os_stat_st_size := fun _ w => (Returned 4096%Z, w);
  image_open_size := fun _ w => (Returned (64, 64)%Z, w);
  image_thumbnail_save := fun _ _ w => (Returned tt, w);
  image_save_tiff := fun _ _ w => (Returned tt, w);
  session_send := fun _ w => (Returned rejection, w);
  thread_join := fun queue w => (match queue with [] => Joined | _ :: _ => Blocked end, w)
|}.

End Stubborn.

(** ** Further worlds of the simulated platform *)

Module Scenes.

(** A large file that is not an image, and a server that rejects it
    for its size. *)
Definition unreadable_large : Sim.world :=
  {| Sim.posix := true;
     Sim.files := [("/in/scan.tif", Sim.Blob 2000000)];
     Sim.transport :=
       [Returned {| status := 500; body := "SizeLimitExceededException: too large" |}] |}.

(** One scan, and a server that accepts it. *)
Definition one_scan_accepted : Sim.world :=
  {| Sim.posix := true;
     Sim.files := [("/in/a.jpg", Sim.File 100 (40, 30)%Z)];
     Sim.transport := [Returned {| status := 200; body := "stored" |}] |}.

End Scenes.

(** Is the event a report of a failure? *)
Definition reports (ev : event) : bool :=
  match ev with
  | Stderr _ | QErrorMessage _ => true
  | _ => false
  end.

(** Is the text made of decimal digits only, of whatever script? *)
Definition decimal_text (s : string) : bool :=
  (list_sum (Re.digits_from 0 s) =? String.length s)%nat.

(** Is the text made of ASCII digits only? *)
Fixpoint all_digits (s : string) : bool :=
  match s with
  | EmptyString => true
  | String c s' => PyStr.is_digit c && all_digits s'
  end.

(** Traces in which no image was converted, or none was sent. *)
Definition no_convert (t : list event) : Prop :=
  Forall (fun ev => converts ev = false) t.

Definition no_send (t : list event) : Prop :=
  Forall (fun ev => sends ev = false) t.

(** The report at the end of [process_image]. *)
Definition pipeline_report (self : ImageUploader) (stage artifact : string) : event :=
  if negb (silent self)
  then QErrorMessage (original_image_path self ++ " upload failed, could not " ++ stage
                        ++ " " ++ artifact)
  else Stderr (original_image_path self ++ " upload failed, could not " ++ stage
                 ++ " " ++ artifact).

Definition pipeline_success (self : ImageUploader) : event :=
  if negb (silent self)
  then QMessageBox ("Successfully uploaded: " ++ original_image_path self)
  else Stdout ("Successfully uploaded: " ++ original_image_path self).

(** Does the character stay out of the text? *)
Fixpoint free_of (c : ascii) (s : string) : bool :=
  match s with
  | EmptyString => true
  | String a s' => negb (Ascii.eqb a c) && free_of c s'
  end.

(** ** The entry point: [ImageUploader.run] and [get_page_images]

    The entry point meets more of the operating system and the PDF
    library.  Its calls and the two it makes on the window are added to
    the events, and the computations of the layers below are lifted. *)

(** How [os.makedirs] ends: the directories are made, a
    [FileExistsError] is raised, or something else is. *)
Inductive makedirs_outcome : Type :=
| DirsMade
| DirsExist (e : exn)
| MakedirsRaised (e : exn).

(** How [os.removedirs] ends: the directory is removed, an [OSError]
    with its [errno] is raised, or something else is. *)
Inductive removedirs_outcome : Type :=
| DirsRemoved
| RemovedirsOSError (errno : Z) (e : exn)
| RemovedirsRaised (e : exn).

Class Shell (P : Platform) : Type := {
  (** a page as [pdf2image] renders it *)
  Page : Type;
  os_path_abspath : string -> World -> string;
  os_path_isdir : string -> World -> bool;
  os_path_isfile : string -> World -> bool;
  (** [from pdf2image import convert_from_path; convert_from_path(path)] *)
  convert_from_path : string -> World -> outcome (list Page) * World;
  os_makedirs : string -> World -> makedirs_outcome * World;
  os_removedirs : string -> World -> removedirs_outcome * World;
  (** [image.save(page_path, 'TIFF')] *)
  page_save : Page -> string -> World -> outcome unit * World
}.

Inductive shell_event : Type :=
| Core (ev : event)
| ConvertFromPath (path : string)
| OsMakedirs (path : string)
| OsRemovedirs (path : string)
| PageSave (path : string)
| DisableControls.

Section ShellMonad.
Context {P : Platform}.

Definition ShM (A : Type) : Type := World -> result A * World * list shell_event.

Definition sret {A} (a : A) : ShM A := fun w => (Ret a, w, []).

Definition sbind {A B} (m : ShM A) (f : A -> ShM B) : ShM B :=
  fun w =>
    match m w with
    | (Ret a, w1, t1) => let '(r, w2, t2) := f a w1 in (r, w2, (t1 ++ t2)%list)
    | (Raise e, w1, t1) => (Raise e, w1, t1)
    | (OutOfFuel, w1, t1) => (OutOfFuel, w1, t1)
    end.

Definition sraise {A} (e : exn) : ShM A := fun w => (Raise e, w, []).

Definition semit (ev : shell_event) : ShM unit := fun w => (Ret tt, w, [ev]).

(** A look at the world that changes nothing. *)
Definition sread {A} (f : World -> A) : ShM A := fun w => (Ret (f w), w, []).

Definition scall {A} (ev : shell_event) (op : World -> outcome A * World) : ShM A :=
  fun w =>
    match op w with
    | (Returned a, w1) => (Ret a, w1, [ev])
    | (Raised e, w1) => (Raise e, w1, [ev])
    end.

Definition stry {A} (m : ShM A) (handler : exn -> option (ShM A)) : ShM A :=
  fun w =>
    match m w with
    | (Raise e, w1, t1) =>
        match handler e with
        | Some h => let '(r, w2, t2) := h w1 in (r, w2, (t1 ++ t2)%list)
        | None => (Raise e, w1, t1)
        end
    | other => other
    end.

(** A computation of the layers below, with its trace. *)
Definition lift {A} (m : M A) : ShM A :=
  fun w => let '(r, w1, t1) := m w in (r, w1, map Core t1).

End ShellMonad.

Notation "x <~ m ;; k" := (sbind m (fun x => k))
  (at level 61, m at next level, right associativity).
Notation "m ~;; k" := (sbind m (fun _ => k))
  (at level 61, right associativity).

Section EntryPoint.
Context {P : Platform} {Sh : Shell P}.

(** [os.makedirs] inside [try: ... except FileExistsError]: was the
    directory made? *)
Definition makedirs_unless_exists (directory : string) : ShM bool :=
  fun w =>
    match os_makedirs directory w with
    | (DirsMade, w1) => (Ret true, w1, [OsMakedirs directory])
    | (DirsExist _, w1) => (Ret false, w1, [OsMakedirs directory])
    | (MakedirsRaised e, w1) => (Raise e, w1, [OsMakedirs directory])
    end.

(** [os.makedirs] outside any [try]. *)
Definition makedirs (directory : string) : ShM unit :=
  fun w =>
    match os_makedirs directory w with
    | (DirsMade, w1) => (Ret tt, w1, [OsMakedirs directory])
    | (DirsExist e, w1) => (Raise e, w1, [OsMakedirs directory])
    | (MakedirsRaised e, w1) => (Raise e, w1, [OsMakedirs directory])
    end.

(** [os.removedirs] inside [try: ... except OSError as err]: the
    [errno] of the error caught, if one was. *)
Definition removedirs_errno (directory : string) : ShM (option Z) :=
  fun w =>
    match os_removedirs directory w with
    | (DirsRemoved, w1) => (Ret None, w1, [OsRemovedirs directory])
    | (RemovedirsOSError errno _, w1) => (Ret (Some errno), w1, [OsRemovedirs directory])
    | (RemovedirsRaised e, w1) => (Raise e, w1, [OsRemovedirs directory])
    end.

(** [os.path.join(images_directory, basename + "_page{}.tif".format(index + 1))] *)
Definition page_path (images_directory basename : string) (index : nat) : string :=
  OsPath.join images_directory
              (basename ++ "_page" ++ PyStr.of_Z (Z.of_nat index + 1) ++ ".tif").

(** The loop [for index, image in enumerate(images)], from [index] on. *)
Fixpoint save_pages (images_directory basename : string) (index : nat) (images : list Page)
  : ShM unit :=
  match images with
  | [] => sret tt
  | image :: rest =>
      scall (PageSave (page_path images_directory basename index))
            (page_save image (page_path images_directory basename index)) ~;;
      save_pages images_directory basename (S index) rest
  end.

(** The directory of the pages is made; one that exists already is
    removed first, with all it holds when [os.removedirs] fails with
    [errno] 39 (directory not empty), and made again. *)
Definition reset_directory (images_directory : string) : ShM unit :=
  made <~ makedirs_unless_exists images_directory ;;
  if (made : bool) then sret tt
  else
    (errno <~ removedirs_errno images_directory ;;
     match errno with
     | Some n =>
         if (n =? 39)%Z
         then lift (call (ShutilRmtree images_directory) (shutil_rmtree images_directory))
         else sret tt
     | None => sret tt
     end) ~;;
    makedirs images_directory.

(** The second [try] of [get_page_images]: the pages are saved. *)
Definition write_pages (images_directory basename : string) (images : list Page)
  : ShM (option string) :=
  stry
    (save_pages images_directory basename 0 images ~;; sret (Some images_directory))
    (fun e =>
       if is_OSError e
       then Some (lift (error "Cannot convert PDF pages into images" (Some e) true) ~;;
                  sret None)
       else None).

(** [ImageUploader.get_page_images]; [None] is Python's [None]. *)
Definition get_page_images (path : string) : ShM (option string) :=
  images <~ scall (ConvertFromPath path) (convert_from_path path) ;;
  let images_directory := fst (OsPath.splitext path) in
  let basename := snd (OsPath.split images_directory) in
  reset_directory images_directory ~;;
  write_pages images_directory basename images.

(** [ImageUploader.run].  After a PDF that could not be expanded
    [path] is [None], and [os.path.isdir(None)] raises a [TypeError]. *)
Definition run (depth : nat) (self : ImageUploader) : ShM (Z * ImageUploader) :=
  path <~ sread (os_path_abspath (original_image_path self)) ;;
  found <~ sread (os_path_exists path) ;;
  if negb found
  then lift (error ("Does not exist: " ++ path) None (silent self)) ~;; sret (1%Z, self)
  else
    (if negb (silent self) then semit DisableControls else sret tt) ~;;
    expanded <~ (if PyStr.endswith (PyStr.lower path) ".pdf"
                 then get_page_images path
                 else sret (Some path)) ;;
    match expanded with
    | None => sraise (OtherError "TypeError")
    | Some path' =>
        isdir <~ sread (os_path_isdir path') ;;
        if (isdir : bool) then lift (process_images self path')
        else
          isfile <~ sread (os_path_isfile path') ;;
          if (isfile : bool)
          then result <~ lift (process_image depth self path') ;;
               (if negb (silent self) then semit (Core EnableControls) else sret tt) ~;;
               sret (result, self)
          else sret (1%Z, self)
    end.

End EntryPoint.

(** The paths of the pages saved, in the order of the trace. *)
Fixpoint saved_pages (t : list shell_event) : list string :=
  match t with
  | [] => []
  | PageSave p :: t' => p :: saved_pages t'
  | _ :: t' => saved_pages t'
  end.

(** What the saves of the pages meet on the platform, from page number
    [index] on: each save returns, or one raises and ends the loop.
    [stop] is the exception met, [saves] the number of saves made. *)
Inductive page_saves {P : Platform} {Sh : Shell P} (images_directory basename : string)
  : nat -> list Page -> World -> option exn -> nat -> World -> Prop :=
| saves_done index w :
    page_saves images_directory basename index [] w None 0 w
| saves_next index image rest w w1 stop saves w2 :
    page_save image (page_path images_directory basename index) w = (Returned tt, w1) ->
    page_saves images_directory basename (S index) rest w1 stop saves w2 ->
    page_saves images_directory basename index (image :: rest) w stop (S saves) w2
| saves_stop index image rest w e w1 :
    page_save image (page_path images_directory basename index) w = (Raised e, w1) ->
    page_saves images_directory basename index (image :: rest) w (Some e) 1 w1.

(** ** The simulated platform, with PDF files

    A file that is not an image stands for a PDF with a page a thousand
    bytes. *)

Module SimShell.

Definition pages_of (p : string) (w : Sim.world) : outcome (list (Z * Z)) * Sim.world :=
  match Sim.lookup p (Sim.files w) with
  | Some (Sim.Blob bytes) => (Returned (repeat (850, 1100)%Z (Z.to_nat (bytes / 1000))), w)
  | Some _ => (Raised (OtherError "PDFSyntaxError"), w)
  | None => (Raised (OtherError "PDFPageCountError"), w)
  end.

Definition mkdirs (d : string) (w : Sim.world) : makedirs_outcome * Sim.world :=
  match Sim.lookup d (Sim.files w) with
  | Some _ => (DirsExist (OSError "FileExistsError"), w)
  | None => (DirsMade, Sim.with_files w (Sim.replace d Sim.Dir (Sim.files w)))
  end.

Definition rmdirs (d : string) (w : Sim.world) : removedirs_outcome * Sim.world :=
  match Sim.lookup d (Sim.files w) with
  | Some Sim.Dir =>
      if Sim.has_children d (Sim.files w)
      then (RemovedirsOSError 39 (OSError "ENOTEMPTY"), w)
      else (DirsRemoved, Sim.with_files w (Sim.remove_tree d (Sim.files w)))
  | Some _ => (RemovedirsOSError 20 (OSError "NotADirectoryError"), w)
  | None => (RemovedirsOSError 2 (OSError "FileNotFoundError"), w)
  end.

Definition save_page (page : Z * Z) (p : string) (w : Sim.world) : outcome unit * Sim.world :=
  match Sim.lookup p (Sim.files w) with
  | Some Sim.Dir => (Raised (OSError "IsADirectoryError"), w)
  | _ => (Returned tt, Sim.with_files w (Sim.replace p (Sim.File 0 page) (Sim.files w)))
  end.

Definition abspath (p : string) (w : Sim.world) : string := p.

Definition isdir (p : string) (w : Sim.world) : bool :=
  match Sim.lookup p (Sim.files w) with
  | Some Sim.Dir => true
  | _ => false
  end.

Definition isfile (p : string) (w : Sim.world) : bool :=
  match Sim.lookup p (Sim.files w) with
  | Some Sim.Dir => false
  | Some _ => true
  | None => false
  end.

#[export] Instance shell : Shell Sim.platform :=
  @Build_Shell Sim.platform (Z * Z)%type abspath isdir isfile pages_of mkdirs rmdirs save_page.

(** A PDF of two pages. *)
Definition fresh_pdf : Sim.world :=
  {| Sim.posix := true;
     Sim.files := [("/in/doc.pdf", Sim.Blob 2000)];
     Sim.transport := [] |}.

(** The same PDF beside the pages of an earlier run. *)
Definition expanded_before : Sim.world :=
  {| Sim.posix := true;
     Sim.files := [("/in/doc.pdf", Sim.Blob 2000);
                   ("/in/doc", Sim.Dir);
                   ("/in/doc/doc_page1.tif", Sim.File 0 (850, 1100)%Z);
                   ("/in/doc/doc_page2.tif", Sim.File 0 (850, 1100)%Z);
                   ("/in/doc/doc_page3.tif", Sim.File 0 (850, 1100)%Z)];
     Sim.transport := [] |}.

(** The PDF beside a file that has the name of its directory. *)
Definition file_in_the_way : Sim.world :=
  {| Sim.posix := true;
     Sim.files := [("/in/doc.pdf", Sim.Blob 2000);
                   ("/in/doc", Sim.Blob 10)];
     Sim.transport := [] |}.

(** The PDF, and a directory where its second page should go. *)
Definition page_blocked : Sim.world :=
  {| Sim.posix := true;
     Sim.files := [("/in/doc.pdf", Sim.Blob 2000);
                   ("/in/doc/doc_page2.tif", Sim.Dir)];
     Sim.transport := [] |}.

(** An uploader that was handed [path]. *)
Definition uploader_for (path : string) (silent_ : bool) : ImageUploader :=
  {| silent := silent_; verbose := false; timestamp := Sim.t0; hawb_number := "77";
     original_image_path := path; bg_results := []; num_bg_tasks := (-1)%Z;
     tasks_queue := [] |}.

End SimShell.

(** * Properties *)

(** ** Uploader *)

Section UploaderFacts.
Context {P : Platform}.

Lemma post_response image_path w resp w1 :
  session_send image_path w = (Returned resp, w1) ->
  post image_path w =
    if (status resp =? 200)%Z then (Ret true, w1, [SessionSend image_path])
    else if ((400 <=? status resp) && (status resp <? 600))%Z
         then (Raise (HTTPError (status resp) (body resp)), w1, [SessionSend image_path])
         else (Ret false, w1, [SessionSend image_path]).
Proof.
  intros Hsend. unfold post, bind, call. rewrite Hsend.
  destruct (status resp =? 200)%Z; [reflexivity|].
  unfold raise_for_status.
  destruct ((400 <=? status resp) && (status resp <? 600))%Z; reflexivity.
Qed.

Lemma post_raise image_path w e w1 :
  session_send image_path w = (Raised e, w1) ->
  post image_path w = (Raise e, w1, [SessionSend image_path]).
Proof. intros Hsend. unfold post, bind, call. rewrite Hsend. reflexivity. Qed.

End UploaderFacts.

(** C4, as the code has it: a response with status 200 makes
    [upload_image] return [True], after the one send and nothing else. *)
Theorem upload_image_200_true {P : Platform} depth image_path w resp w1 :
  session_send image_path w = (Returned resp, w1) ->
  status resp = 200%Z ->
  upload_image (S depth) image_path w = (Ret true, w1, [SessionSend image_path]).
Proof.
  intros Hsend Hok. cbn [upload_image]. unfold try_except.
  rewrite (post_response _ _ _ _ Hsend), Hok. reflexivity.
Qed.

Lemma upload_image_200_true_witness :
  upload_image (P := Sim.platform) 1 "/in/scan.tif" (Sim.answering 200 "stored")
  = (Ret true,
     {| Sim.posix := true; Sim.files := Sim.files (Sim.answering 200 "stored");
        Sim.transport := [] |},
     [SessionSend "/in/scan.tif"]).
Proof.
  apply (upload_image_200_true (P := Sim.platform) 0 "/in/scan.tif"
           (Sim.answering 200 "stored") {| status := 200; body := "stored" |}).
  - reflexivity.
  - reflexivity.
Defined.

(** C4 as stated fails: the answer 201 Created is a success status,
    and [upload_image] returns [False] on it. *)
Lemma upload_image_201_false :
  exists w', upload_image (P := Sim.platform) 1 "/in/scan.tif" (Sim.answering 201 "created")
             = (Ret false, w', [SessionSend "/in/scan.tif"]).
Proof. eexists. vm_compute. reflexivity. Qed.

(** C8: when sending raises a connection failure or a timeout,
    [upload_image] returns [False], no exception leaves it, and the
    failure is written to the diagnostic stream. *)
Theorem upload_image_transport_failure {P : Platform} depth image_path w e w1 :
  session_send image_path w = (Raised e, w1) ->
  (exists d, e = ConnectionError d) \/ (exists d, e = Timeout d) ->
  exists message,
    upload_image (S depth) image_path w
    = (Ret false, w1, [SessionSend image_path; Stderr message; Stderr (repr e)]).
Proof.
  intros Hsend He. cbn [upload_image]. unfold try_except.
  rewrite (post_raise _ _ _ _ Hsend).
  destruct He as [[d ->] | [d ->]]; eexists; reflexivity.
Qed.

Lemma upload_image_transport_failure_witness :
  exists message,
    upload_image (P := Sim.platform) 1 "/in/scan.tif" Sim.heavy_scan
    = (Ret false, Sim.heavy_scan,
       [SessionSend "/in/scan.tif"; Stderr message;
        Stderr (repr (ConnectionError "connection refused"))]).
Proof.
  apply (upload_image_transport_failure (P := Sim.platform) 0 "/in/scan.tif"
           Sim.heavy_scan (ConnectionError "connection refused") Sim.heavy_scan).
  - reflexivity.
  - left. eexists. reflexivity.
Defined.




(** A server that rejects the scan once for its size and then accepts
    it: the file is shrunk between the two sends and the upload
    succeeds. *)
Example upload_image_retries_after_compress :
  let '(r, w', t) := upload_image (P := Sim.platform) 2 "/in/scan.tif" Sim.rejected_once in
  r = Ret true
  /\ fst (Sim.stat_size "/in/scan.tif" Sim.rejected_once) = Returned 3000500%Z
  /\ fst (Sim.stat_size "/in/scan.tif" w') = Returned 786932%Z
  /\ re_encodes t = 3.
Proof. vm_compute. repeat split. Qed.

(** ** SizeBounder *)

Section CompressFacts.
Context {P : Platform}.

Lemma re_encodes_app t1 t2 : re_encodes (t1 ++ t2) = re_encodes t1 + re_encodes t2.
Proof.
  induction t1 as [|ev t1 IH]; [reflexivity|].
  destruct ev; simpl; rewrite IH; reflexivity.
Qed.

(** A pass that returns made exactly one re-encode. *)
Lemma compress_pass_ret image_path w size w1 t1 :
  compress_pass image_path w = (Ret size, w1, t1) -> re_encodes t1 = 1.
Proof.
  unfold compress_pass, bind, call.
  destruct (image_open_size image_path w) as [[d|e] wa]; [|discriminate].
  destruct (image_thumbnail_save _ _ wa) as [[[]|e] wb]; [|discriminate].
  destruct (os_stat_st_size image_path wb) as [[z|e] wc]; [|discriminate].
  intros H. inversion H. reflexivity.
Qed.

(** A pass never runs out of budget: it is three library calls. *)
Lemma compress_pass_terminates image_path w :
  fst (fst (compress_pass image_path w)) <> OutOfFuel.
Proof.
  unfold compress_pass, bind, call.
  destruct (image_open_size image_path w) as [[d|e] wa]; [|discriminate].
  destruct (image_thumbnail_save _ _ wa) as [[[]|e] wb]; [|discriminate].
  destruct (os_stat_st_size image_path wb) as [[z|e] wc]; discriminate.
Qed.

(** The loop as written: it goes on while the file is over the limit
    and [passes] has not gone past [MAX_RESIZE_PASSES], so [passes]
    can reach [MAX_RESIZE_PASSES + 1]. *)
Lemma compress_loop_stops fuel image_path :
  forall passes size w passes' size' w' t,
    compress_loop fuel image_path passes size w = (Ret (passes', size'), w', t) ->
    (passes <= MAX_RESIZE_PASSES + 1)%Z ->
    (passes <= passes' <= MAX_RESIZE_PASSES + 1)%Z
    /\ ((size' <= FILE_SIZE_LIMIT)%Z \/ passes' = (MAX_RESIZE_PASSES + 1)%Z)
    /\ Z.of_nat (re_encodes t) = (passes' - passes)%Z.
Proof.
  induction fuel as [|fuel IH]; intros passes size w passes' size' w' t Hrun Hle;
    cbn [compress_loop] in Hrun;
    destruct (size >? FILE_SIZE_LIMIT)%Z eqn:Hsize;
    destruct (passes >? MAX_RESIZE_PASSES)%Z eqn:Hpasses;
    cbn [andb negb] in Hrun; unfold ret, out_of_fuel in Hrun;
    try (inversion Hrun; subst;
         rewrite Z.gtb_ltb in Hsize, Hpasses;
         rewrite ?Z.ltb_lt, ?Z.ltb_ge in Hsize, Hpasses;
         cbn [re_encodes Z.of_nat]; lia).
  unfold bind in Hrun.
  destruct (compress_pass image_path w) as [[[s| |] wa] ta] eqn:Hpass;
    try discriminate.
  destruct (compress_loop fuel image_path (passes + 1) s wa) as [[r wb] tb] eqn:Hloop.
  inversion Hrun; subst.
  rewrite Z.gtb_ltb, Z.ltb_ge in Hpasses.
  destruct (IH _ _ _ _ _ _ _ Hloop ltac:(lia)) as (Hb & Hstop & Hcount).
  rewrite re_encodes_app, (compress_pass_ret _ _ _ _ _ Hpass).
  split; [lia|]. split; [exact Hstop|]. lia.
Qed.

(** With a budget of [MAX_RESIZE_PASSES + 1 - passes] turns the loop
    comes to its end. *)
Lemma compress_loop_fuel fuel image_path :
  forall passes size w,
    (MAX_RESIZE_PASSES + 1 - passes <= Z.of_nat fuel)%Z ->
    fst (fst (compress_loop fuel image_path passes size w)) <> OutOfFuel.
Proof.
  induction fuel as [|fuel IH]; intros passes size w Hfuel; cbn [compress_loop];
    destruct (size >? FILE_SIZE_LIMIT)%Z eqn:Hsize;
    destruct (passes >? MAX_RESIZE_PASSES)%Z eqn:Hpasses;
    cbn [andb negb]; unfold ret, out_of_fuel; try discriminate.
  - rewrite Z.gtb_ltb, Z.ltb_ge in Hpasses. lia.
  - unfold bind.
    pose proof (compress_pass_terminates image_path w) as Hpass.
    destruct (compress_pass image_path w) as [[[s| |] wa] ta];
      try discriminate; [|contradiction Hpass; reflexivity].
    specialize (IH (passes + 1)%Z s wa ltac:(lia)).
    destruct (compress_loop fuel image_path (passes + 1) s wa) as [[r wb] tb].
    exact IH.
Qed.

(** [compress_image] always comes to an end. *)
Lemma compress_image_terminates image_path w :
  fst (fst (compress_image image_path w)) <> OutOfFuel.
Proof.
  unfold compress_image, compress_image_locals, bind, call.
  destruct (os_stat_st_size image_path w) as [[z|e] wa]; [|discriminate].
  pose proof (compress_loop_fuel compress_fuel image_path 0 z wa) as Hloop.
  destruct (compress_loop compress_fuel image_path 0 z wa) as [[[r| |] wb] tb];
    try discriminate.
  intros _. apply Hloop; [|reflexivity].
  unfold MAX_RESIZE_PASSES, compress_fuel. lia.
Qed.

(** Whatever the input, at most [MAX_RESIZE_PASSES + 1] = 51 passes. *)
Lemma compress_image_at_most_51 image_path w passes size w' t :
  compress_image_locals compress_fuel image_path w = (Ret (passes, size), w', t) ->
  (0 <= passes <= 51)%Z
  /\ ((size <= FILE_SIZE_LIMIT)%Z \/ passes = 51%Z)
  /\ Z.of_nat (re_encodes t) = passes.
Proof.
  unfold compress_image_locals, bind, call.
  destruct (os_stat_st_size image_path w) as [[z|e] wa]; [|discriminate].
  destruct (compress_loop compress_fuel image_path 0 z wa) as [[r wb] tb] eqn:Hloop.
  intros H. inversion H; subst.
  destruct (compress_loop_stops _ _ _ _ _ _ _ _ _ Hloop) as (Hb & Hstop & Hcount).
  - unfold MAX_RESIZE_PASSES. lia.
  - cbn [re_encodes]. unfold MAX_RESIZE_PASSES in *.
    split; [lia|]. split; [|lia].
    destruct Hstop as [Hsmall | Hmax]; [left; exact Hsmall | right; lia].
Qed.

End CompressFacts.

(** C1 at two files that stay over the limit whatever their pixel
    count.  At 3000 pixels a side the image is down to one pixel after
    31 passes: the 32nd pass asks for an empty box, and
    [compress_image] ends by the exception raised for it, with the file
    still over the limit and [passes] at 32, not at
    [MAX_RESIZE_PASSES].  At 240,000 pixels a side the sides stay
    positive through every pass: the loop makes 51 re-encode passes,
    one more than [MAX_RESIZE_PASSES], each of them on a box of at
    least one pixel a side, and stops over the limit with [passes] at
    51 and an image of one pixel. *)
Theorem compress_image_51_passes :
  (let '(r, w', t) :=
     compress_image_locals (P := Sim.platform) compress_fuel "/in/scan.tif" Sim.square_scan in
   r = Raise (OtherError "ValueError: height and width must be > 0")
   /\ re_encodes t = 32
   /\ fst (Sim.open_size "/in/scan.tif" w') = Returned (1, 1)%Z
   /\ fst (Sim.stat_size "/in/scan.tif" w') = Returned 1500003%Z)
  /\ (let '(r, w', t) :=
        compress_image_locals (P := Sim.platform) compress_fuel "/in/scan.tif" Sim.vast_scan in
      r = Ret (51%Z, 1500003%Z)
      /\ re_encodes t = 51
      /\ Forall (fun ev => match ev with
                           | ThumbnailSave _ d => (1 <=? fst d)%Z && (1 <=? snd d)%Z = true
                           | _ => True
                           end) t
      /\ fst (Sim.open_size "/in/scan.tif" w') = Returned (1, 1)%Z).
Proof.
  split.
  - vm_compute. repeat split.
  - vm_compute. split; [reflexivity|]. split; [reflexivity|].
    split; [|reflexivity]. repeat constructor.
Qed.

(** ** Namer *)

(** C2 at the file name [foo_page12_page3.tif]: the marker copied into
    the new name is [_page1], a prefix of the marker [_page12] that
    another [_page] follows, and not [_page3]. *)
Theorem page_marker_backtracks :
  page_search "foo_page12_page3.tif" = Some "_page1"
  /\ forall ts hawb,
       get_new_filename ts hawb "foo_page12_page3.tif"
       = "h" ++ hawb ++ "-" ++ strftime_Ymd ts ++ "-" ++ strftime_HMS ts ++ "_page1.tif".
Proof.
  split; [vm_compute; reflexivity|].
  intros ts hawb. unfold get_new_filename.
  replace (page_search "foo_page12_page3.tif") with (Some "_page1")
    by (vm_compute; reflexivity).
  replace (OsPath.splitext "foo_page12_page3.tif") with ("foo_page12_page3", ".tif")
    by (vm_compute; reflexivity).
  reflexivity.
Qed.

(** With one digit a side the look-ahead has nothing to give back,
    and the marker that no [_page] follows is the one found. *)
Example page_marker_single_digits :
  page_search "foo_page3_page5.tif" = Some "_page5"
  /\ page_search "scan_page7.tif" = Some "_page7"
  /\ page_search "scan.tif" = None.
Proof. vm_compute. repeat split. Qed.

(** [rename_path] starts with the move to the destination it computed,
    and a path it returns is that destination. *)
Lemma rename_path_first_move {P : Platform} self path w :
  exists r w' t,
    rename_path self path w
    = (r, w', OsRenames path (renamed_path (timestamp self) (hawb_number self) path) :: t)
    /\ forall q, r = Ret (Some q) ->
                 q = renamed_path (timestamp self) (hawb_number self) path.
Proof.
  unfold rename_path, rename, try_except, bind, call, ret, error, emit.
  set (dst := renamed_path (timestamp self) (hawb_number self) path).
  destruct (os_renames path dst w) as [[[]|e1] w1].
  - do 3 eexists. split; [reflexivity|]. intros q Hq. inversion Hq. reflexivity.
  - destruct (is_OSError e1).
    + destruct (shutil_rmtree dst w1) as [[[]|e2] w2].
      * destruct (os_renames path dst w2) as [[[]|e3] w3];
          do 3 eexists; (split; [reflexivity|]); intros q Hq; inversion Hq; reflexivity.
      * do 3 eexists. split; [reflexivity|]. intros q Hq. inversion Hq.
    + do 3 eexists. split; [reflexivity|]. intros q Hq. inversion Hq.
Qed.

(** C9: the time stamp is a field set when the uploader is built and
    no method changes it, so two files of one directory with the same
    extension and no page marker get one and the same destination.
    The first file, when its move succeeds, is at that destination and
    [rename_path] returns it; and whatever the state of the file system,
    the first thing [rename_path] does with the second file is to move
    it to that same destination. *)
Theorem rename_same_destination {P : Platform} self path1 path2 :
  fst (OsPath.split path1) = fst (OsPath.split path2) ->
  snd (OsPath.split path1) <> "" ->
  snd (OsPath.split path2) <> "" ->
  snd (OsPath.splitext (snd (OsPath.split path1)))
  = snd (OsPath.splitext (snd (OsPath.split path2))) ->
  page_search (snd (OsPath.split path1)) = None ->
  page_search (snd (OsPath.split path2)) = None ->
  renamed_path (timestamp self) (hawb_number self) path2
  = renamed_path (timestamp self) (hawb_number self) path1
  /\ (forall w w1,
        os_renames path1 (renamed_path (timestamp self) (hawb_number self) path1) w
        = (Returned tt, w1) ->
        rename_path self path1 w
        = (Ret (Some (renamed_path (timestamp self) (hawb_number self) path1)), w1,
           [OsRenames path1 (renamed_path (timestamp self) (hawb_number self) path1)]))
  /\ (forall w, exists r w2 t2,
        rename_path self path2 w
        = (r, w2,
           OsRenames path2 (renamed_path (timestamp self) (hawb_number self) path1) :: t2)).
Proof.
  intros Hdir Hname1 Hname2 Hext Hpage1 Hpage2.
  assert (Hsame : renamed_path (timestamp self) (hawb_number self) path2
                  = renamed_path (timestamp self) (hawb_number self) path1).
  { unfold renamed_path.
    destruct (OsPath.split path1) as [d1 f1], (OsPath.split path2) as [d2 f2].
    cbn [fst snd] in *. subst d2.
    unfold get_new_filename.
    apply String.eqb_neq in Hname1, Hname2.
    rewrite Hname1, Hname2, Hpage1, Hpage2, Hext. reflexivity. }
  split; [exact Hsame|]. split.
  - intros w w1 Hmove.
    unfold rename_path, rename, try_except, bind, call, ret.
    rewrite Hmove. reflexivity.
  - intros w. rewrite <- Hsame.
    destruct (rename_path_first_move self path2 w) as (r2 & w2 & t2 & Hrun2 & _).
    exists r2, w2, t2. exact Hrun2.
Qed.

(** Two scans of one batch: the first is moved to
    [h77-20180307-090542.jpg], and the second is then moved to the
    same path. *)
Lemma rename_same_destination_witness :
  renamed_path Sim.t0 "77" "/in/b.jpg" = "/in/h77-20180307-090542.jpg"
  /\ rename_path (P := Sim.platform) (Sim.uploader "77" true) "/in/a.jpg" Sim.two_scans
     = (Ret (Some "/in/h77-20180307-090542.jpg"),
        {| Sim.posix := true;
           Sim.files := [("/in/h77-20180307-090542.jpg", Sim.File 100 (40, 30)%Z);
                         ("/in/b.jpg", Sim.File 200 (80, 60)%Z)];
           Sim.transport := [] |},
        [OsRenames "/in/a.jpg" "/in/h77-20180307-090542.jpg"])
  /\ exists r w2 t2,
       rename_path (P := Sim.platform) (Sim.uploader "77" true) "/in/b.jpg"
         {| Sim.posix := true;
            Sim.files := [("/in/h77-20180307-090542.jpg", Sim.File 100 (40, 30)%Z);
                          ("/in/b.jpg", Sim.File 200 (80, 60)%Z)];
            Sim.transport := [] |}
       = (r, w2, OsRenames "/in/b.jpg" "/in/h77-20180307-090542.jpg" :: t2).
Proof.
  destruct (rename_same_destination (P := Sim.platform) (Sim.uploader "77" true)
              "/in/a.jpg" "/in/b.jpg")
    as (Hsame & Hfirst & Hsecond).
  - reflexivity.
  - discriminate.
  - discriminate.
  - reflexivity.
  - reflexivity.
  - reflexivity.
  - split; [exact Hsame|]. split.
    + apply (Hfirst Sim.two_scans). reflexivity.
    + apply Hsecond.
Defined.

(** The two scans of one batch: both are given the name
    [h77-20180307-090542.jpg], and the second replaces the first. *)
Example rename_two_scans :
  let '(r, w', _) :=
    mapM (rename_path (P := Sim.platform) (Sim.uploader "77" true))
         ["/in/a.jpg"; "/in/b.jpg"] Sim.two_scans in
  r = Ret [Some "/in/h77-20180307-090542.jpg"; Some "/in/h77-20180307-090542.jpg"]
  /\ Sim.files w' = [("/in/h77-20180307-090542.jpg", Sim.File 200 (80, 60)%Z)].
Proof. vm_compute. split; reflexivity. Qed.

(** Two names whose page markers are written with ARABIC-INDIC digits
    (U+0661, U+0662): the markers are found and the destinations
    differ. *)
Example rename_markers_of_other_scripts :
  renamed_path Sim.t0 "77" ("/in/a_page" ++ PyStr.utf8 1633 ++ ".jpg")
  = "/in/h77-20180307-090542_page" ++ PyStr.utf8 1633 ++ ".jpg"
  /\ renamed_path Sim.t0 "77" ("/in/b_page" ++ PyStr.utf8 1634 ++ ".jpg")
     = "/in/h77-20180307-090542_page" ++ PyStr.utf8 1634 ++ ".jpg".
Proof. vm_compute. split; reflexivity. Qed.

(** ** ResultAggregator *)

(** C10: the count of failures is the length of a list, so it is never
    negative, the arm of [examine_bg_results] for a negative count is
    never taken, and its report is never made. *)
Theorem examine_never_negative {P : Platform} self w :
  (0 <= Z.of_nat (List.length (failures (bg_results self))))%Z
  /\ examine (Z.of_nat (List.length (failures (bg_results self)))) <> CouldNotUpload
  /\ Forall (fun ev =>
               ev <> Stderr ("Could not upload file " ++ original_image_path self ++ " to MyFSP")
               /\ ev <> QErrorMessage
                          ("Could not upload file " ++ original_image_path self ++ " to MyFSP"))
            (snd (examine_bg_results self w)).
Proof.
  assert (Hnum : (0 <= Z.of_nat (List.length (failures (bg_results self))))%Z) by lia.
  assert (Harm : examine (Z.of_nat (List.length (failures (bg_results self))))
                 <> CouldNotUpload).
  { unfold examine.
    destruct (Z.of_nat (List.length (failures (bg_results self))) >? 0)%Z; [discriminate|].
    destruct (Z.of_nat (List.length (failures (bg_results self))) <? 0)%Z eqn:Hneg;
      [|discriminate].
    apply Z.ltb_lt in Hneg. lia. }
  split; [exact Hnum|]. split; [exact Harm|].
  unfold examine_bg_results.
  destruct (examine (Z.of_nat (List.length (failures (bg_results self))))) eqn:Hexamine;
    [|contradiction|];
    unfold error, success, bind, emit, ret; destruct (silent self); cbn;
    repeat constructor; discriminate.
Qed.

(** ** PathMover *)



(** When the retry fails too: the file to move has vanished, the
    directory in the way is cleared, and [rename_path] reports and
    returns [False]. *)
Example rename_path_retry_fails :
  rename_path (P := Sim.platform) (Sim.uploader "77" true) "/in/a.jpg" Sim.vanished
  = (Ret None,
     {| Sim.posix := true; Sim.files := []; Sim.transport := [] |},
     [OsRenames "/in/a.jpg" "/in/h77-20180307-090542.jpg";
      ShutilRmtree "/in/h77-20180307-090542.jpg";
      OsRenames "/in/a.jpg" "/in/h77-20180307-090542.jpg";
      Stderr "Could not rename /in/a.jpg to /in/h77-20180307-090542.jpg";
      Stderr "OSError(FileNotFoundError)"]).
Proof. vm_compute. reflexivity. Qed.


(** ** Batch processing *)

Section BatchFacts.
Context {P : Platform}.

Lemma quiet_app t1 t2 : quiet t1 -> quiet t2 -> quiet (t1 ++ t2).
Proof. unfold quiet. intros H1 H2. apply Forall_app. split; assumption. Qed.

(** Renaming a file never touches the worker. *)
Lemma rename_path_quiet self path w : quiet (snd (rename_path self path w)).
Proof.
  unfold quiet, rename_path, rename, try_except, bind, call, ret, error, emit.
  generalize (renamed_path (timestamp self) (hawb_number self) path). intros dst.
  destruct (os_renames path dst w) as [[[]|e1] w1]; cbn.
  - repeat constructor.
  - destruct (is_OSError e1); cbn; [|repeat constructor].
    destruct (shutil_rmtree dst w1) as [[[]|e2] w2]; cbn; [|repeat constructor].
    destruct (os_renames path dst w2) as [[[]|e3] w3]; cbn; repeat constructor.
Qed.

(** Nor does converting one. *)
Lemma convert_image_quiet image_path w : quiet (snd (convert_image image_path w)).
Proof.
  unfold quiet, convert_image.
  destruct (PyStr.endswith (PyStr.lower image_path) ".tif"
            || PyStr.endswith (PyStr.lower image_path) ".tiff"); [constructor|].
  unfold try_except, bind, call, ret, error, emit.
  destruct (image_save_tiff image_path _ w) as [[[]|e] w1]; cbn; [repeat constructor|].
  destruct (is_OSError e); cbn; repeat constructor.
Qed.

Lemma mapM_quiet {A B} (f : A -> M B) :
  (forall a w, quiet (snd (f a w))) ->
  forall l w, quiet (snd (mapM f l w)).
Proof.
  intros Hf l. induction l as [|a l IH]; intros w; cbn [mapM]; [constructor|].
  unfold bind. specialize (Hf a w).
  destruct (f a w) as [[[b| |] w1] t1]; cbn [snd] in *; try exact Hf.
  specialize (IH w1).
  destruct (mapM f l w1) as [[[bs| |] w2] t2]; cbn [snd] in *;
    try (apply quiet_app; assumption).
  unfold ret. cbn. rewrite app_nil_r. apply quiet_app; assumption.
Qed.

Lemma get_all_files_quiet directory w : quiet (snd (get_all_files directory w)).
Proof.
  unfold quiet, get_all_files, call.
  destruct (os_walk_files directory w) as [[l|e] w1]; repeat constructor.
Qed.

Lemma batch_report_quiet step self : quiet [batch_report step self].
Proof. unfold quiet, batch_report. destruct (silent self); repeat constructor. Qed.

End BatchFacts.

(** C7: when no file is left after the renaming step, or none after
    the conversion step, [process_images] makes one report for the
    batch, the last thing it does, and returns 1 with the uploader as
    it was: the worker thread is not started and nothing is put on the
    queue. *)
Theorem process_images_no_survivors {P : Platform} self directory w
        image_paths w1 t1 renamed w2 t2 :
  get_all_files directory w = (Ret image_paths, w1, t1) ->
  mapM (rename_path self) image_paths w1 = (Ret renamed, w2, t2) ->
  (truthy renamed = [] ->
   process_images self directory w
   = (Ret (1%Z, self), w2, (t1 ++ t2 ++ [batch_report "renaming" self])%list)
   /\ quiet (t1 ++ t2 ++ [batch_report "renaming" self]))
  /\ (truthy renamed <> [] ->
      forall converted w3 t3,
        mapM convert_image (truthy renamed) w2 = (Ret converted, w3, t3) ->
        truthy converted = [] ->
        process_images self directory w
        = (Ret (1%Z, self), w3, (t1 ++ t2 ++ t3 ++ [batch_report "conversion" self])%list)
        /\ quiet (t1 ++ t2 ++ t3 ++ [batch_report "conversion" self])).
Proof.
  intros Hwalk Hrename.
  assert (Hq1 : quiet t1).
  { pose proof (get_all_files_quiet directory w) as H. rewrite Hwalk in H. exact H. }
  assert (Hq2 : quiet t2).
  { pose proof (mapM_quiet (rename_path self) (rename_path_quiet self) image_paths w1) as H.
    rewrite Hrename in H. exact H. }
  split.
  - intros Hnone. split.
    + unfold process_images, bind. rewrite Hwalk, Hrename, Hnone. cbn [List.length Nat.eqb].
      unfold error, bind, emit, ret, batch_report.
      destruct (silent self); reflexivity.
    + repeat apply quiet_app; try assumption. apply batch_report_quiet.
  - intros Hsome converted w3 t3 Hconvert Hnone.
    assert (Hq3 : quiet t3).
    { pose proof (mapM_quiet convert_image convert_image_quiet (truthy renamed) w2) as H.
      rewrite Hconvert in H. exact H. }
    split.
    + unfold process_images, bind. rewrite Hwalk, Hrename.
      destruct (truthy renamed) as [|f fs] eqn:Hrenamed; [contradiction|].
      cbn [List.length Nat.eqb]. rewrite Hconvert, Hnone. cbn [List.length Nat.eqb].
      unfold error, bind, emit, ret, batch_report.
      destruct (silent self); reflexivity.
    + repeat apply quiet_app; try assumption. apply batch_report_quiet.
Qed.

Lemma process_images_no_survivors_witness :
  process_images (P := Sim.platform) (Sim.uploader "77" true) "/in" Sim.not_an_image
  = (Ret (1%Z, Sim.uploader "77" true),
     {| Sim.posix := true;
        Sim.files := [("/in/h77-20180307-090542.txt", Sim.Blob 1200)];
        Sim.transport := [] |},
     [OsWalk "/in";
      OsRenames "/in/notes.txt" "/in/h77-20180307-090542.txt";
      SaveTiff "/in/h77-20180307-090542.txt" "/in/h77-20180307-090542.tif";
      Stderr "OS Error during conversion";
      Stderr "OSError(cannot identify image file)";
      batch_report "conversion" (Sim.uploader "77" true)])
  /\ quiet
       [OsWalk "/in";
        OsRenames "/in/notes.txt" "/in/h77-20180307-090542.txt";
        SaveTiff "/in/h77-20180307-090542.txt" "/in/h77-20180307-090542.tif";
        Stderr "OS Error during conversion";
        Stderr "OSError(cannot identify image file)";
        batch_report "conversion" (Sim.uploader "77" true)].
Proof.
  refine (proj2 (process_images_no_survivors (P := Sim.platform)
                   (Sim.uploader "77" true) "/in" Sim.not_an_image
                   ["/in/notes.txt"] Sim.not_an_image [OsWalk "/in"]
                   [Some "/in/h77-20180307-090542.txt"]
                   {| Sim.posix := true;
                      Sim.files := [("/in/h77-20180307-090542.txt", Sim.Blob 1200)];
                      Sim.transport := [] |}
                   [OsRenames "/in/notes.txt" "/in/h77-20180307-090542.txt"]
                   _ _)
                _ [None] _
                [SaveTiff "/in/h77-20180307-090542.txt" "/in/h77-20180307-090542.tif";
                 Stderr "OS Error during conversion";
                 Stderr "OSError(cannot identify image file)"]
                _ _).
  - reflexivity.
  - reflexivity.
  - discriminate.
  - reflexivity.
  - reflexivity.
Defined.

(** An empty directory: nothing is left after the renaming step. *)
Example process_images_empty_directory :
  process_images (P := Sim.platform) (Sim.uploader "77" true) "/out" Sim.not_an_image
  = (Ret (1%Z, Sim.uploader "77" true), Sim.not_an_image,
     [OsWalk "/out";
      Stderr ("Upload of /in failed. There were no more images to process after the "
              ++ "renaming step. Please check the uploader log for previous errors.")]).
Proof. vm_compute. reflexivity. Qed.

(** ** The background worker *)

Section RunnerFacts.
Context {W : Type}.
Variable uploader_run : string -> string -> W -> result Z * W.

Import BGRunner.

Lemma images_app l1 l2 : images (l1 ++ l2) = (images l1 ++ images l2)%list.
Proof.
  induction l1 as [|sig l1 IH]; [reflexivity|].
  destruct sig; cbn [images app]; rewrite IH; reflexivity.
Qed.

Lemma invariant_step s s' : invariant s -> step uploader_run s s' -> invariant s'.
Proof.
  intros (taken & Himages & Hat) Hstep.
  destruct Hstep as [s task | s Hhead Hempty | s hawb image rest Hhead Htasks
                    | s hawb image r w' Hgot Hrun | s hawb image e w' Hgot Hrun];
    cbn [tasks history emitted at_ world].
  - exists taken. split; [exact Himages|]. cbn [tasks history emitted at_].
    destruct (at_ s).
    + destruct Hat as [Hh Hf]. split; [|exact Hf]. rewrite Hh, app_assoc. reflexivity.
    + destruct Hat as [Hh Hf]. split; [|exact Hf].
      rewrite Hh, <- app_assoc. reflexivity.
    + destruct Hat as [Hh Hf]. split; [|exact Hf]. rewrite Hh, app_assoc. reflexivity.
    + destruct Hat as [[lost Hh] Hf]. split; [|exact Hf]. exists lost.
      rewrite Hh, <- app_assoc. reflexivity.
  - rewrite Hhead in Hat. destruct Hat as [Hh Hf]. exists taken.
    cbn [tasks history emitted at_]. rewrite images_app, app_nil_r.
    split; [exact Himages|]. split.
    + rewrite Hh, Hempty. reflexivity.
    + exists (emitted s). split; [reflexivity|exact Hf].
  - rewrite Hhead in Hat. destruct Hat as [Hh Hf]. exists taken.
    cbn [tasks history emitted at_].
    split; [exact Himages|]. split; [|exact Hf]. rewrite Hh, Htasks. reflexivity.
  - rewrite Hgot in Hat. destruct Hat as [Hh Hf]. exists (taken ++ [(hawb, image)])%list.
    cbn [tasks history emitted at_]. rewrite images_app, map_app, Himages.
    split; [reflexivity|]. split.
    + rewrite Hh, <- app_assoc. reflexivity.
    + apply Forall_app. split; [exact Hf|]. constructor; [|constructor].
      exists r, image. reflexivity.
  - rewrite Hgot in Hat. destruct Hat as [Hh Hf]. exists taken.
    cbn [tasks history emitted at_].
    split; [exact Himages|]. split; [|exact Hf]. exists (hawb, image). exact Hh.
Qed.

Lemma invariant_reachable w0 s : reachable uploader_run w0 s -> invariant s.
Proof.
  induction 1 as [|s s' _ IH Hstep].
  - exists []. split; [reflexivity|]. cbn. split; [reflexivity|constructor].
  - exact (invariant_step s s' IH Hstep).
Qed.

(** In a list of outcome signals no [Done] is found. *)
Lemma results_no_done l n code :
  Forall (fun sig => exists r image, sig = Result r image) l ->
  nth_error l n <> Some (Done code).
Proof.
  intros Hf Hn. apply nth_error_In in Hn.
  rewrite Forall_forall in Hf. destruct (Hf _ Hn) as (r & image & Heq). discriminate.
Qed.

Lemma done_is_last l n code :
  Forall (fun sig => exists r image, sig = Result r image) l ->
  nth_error (l ++ [Done 0%Z]) n = Some (Done code) ->
  S n = List.length (l ++ [Done 0%Z]).
Proof.
  intros Hf Hn. rewrite length_app. cbn [List.length].
  destruct (Nat.lt_ge_cases n (List.length l)) as [Hlt | Hge].
  - rewrite nth_error_app1 in Hn by exact Hlt.
    exfalso. exact (results_no_done l n code Hf Hn).
  - rewrite nth_error_app2 in Hn by exact Hge.
    destruct (n - List.length l) as [|k] eqn:Hk.
    + lia.
    + cbn in Hn. destruct k; discriminate.
Qed.

End RunnerFacts.

(** C6: at every moment of a run of the worker, whatever the producer
    puts on the queue in between, the outcome signals emitted so far
    are those of the first tasks put, in the order they were put; a
    [Done] signal is the last signal emitted; and when [run] has
    returned and the queue is empty there is one outcome for every
    task that was put, followed by [Done]. *)
Theorem bgrunner_signals_fifo_done_last {W : Type}
        (uploader_run : string -> string -> W -> result Z * W) w0 s :
  BGRunner.reachable uploader_run w0 s ->
  (exists rest,
      map snd (BGRunner.history s) = (BGRunner.images (BGRunner.emitted s) ++ rest)%list)
  /\ (forall n code,
         nth_error (BGRunner.emitted s) n = Some (BGRunner.Done code) ->
         S n = List.length (BGRunner.emitted s))
  /\ (BGRunner.at_ s = BGRunner.Finished ->
      (exists l, BGRunner.emitted s = (l ++ [BGRunner.Done 0%Z])%list
                 /\ List.length l = List.length (BGRunner.images (BGRunner.emitted s)))
      /\ (BGRunner.tasks s = [] ->
          BGRunner.images (BGRunner.emitted s) = map snd (BGRunner.history s))).
Proof.
  intros Hreach.
  destruct (invariant_reachable uploader_run w0 s Hreach) as (taken & Himages & Hat).
  split; [|split].
  - rewrite Himages.
    destruct (BGRunner.at_ s).
    + destruct Hat as [Hh _]. exists (map snd (BGRunner.tasks s)).
      rewrite Hh, map_app. reflexivity.
    + destruct Hat as [Hh _]. exists (map snd ((hawb, image) :: BGRunner.tasks s)).
      rewrite Hh, map_app. reflexivity.
    + destruct Hat as [Hh _]. exists (map snd (BGRunner.tasks s)).
      rewrite Hh, map_app. reflexivity.
    + destruct Hat as [[task Hh] _]. exists (map snd (task :: BGRunner.tasks s)).
      rewrite Hh, map_app. reflexivity.
  - intros n code Hn.
    destruct (BGRunner.at_ s).
    + destruct Hat as [_ Hf]. exfalso. exact (results_no_done _ n code Hf Hn).
    + destruct Hat as [_ Hf]. exfalso. exact (results_no_done _ n code Hf Hn).
    + destruct Hat as [_ (l & Hl & Hf)]. rewrite Hl in *.
      exact (done_is_last l n code Hf Hn).
    + destruct Hat as [_ Hf]. exfalso. exact (results_no_done _ n code Hf Hn).
  - intros Hfin. rewrite Hfin in Hat. destruct Hat as [Hh (l & Hl & Hf)]. split.
    + exists l. split; [exact Hl|].
      rewrite Hl, images_app. cbn [BGRunner.images]. rewrite app_nil_r.
      clear - Hf. induction Hf as [|sig l (r & image & ->) _ IH]; [reflexivity|].
      cbn [BGRunner.images List.length]. rewrite IH. reflexivity.
    + intros Hempty. rewrite Himages, Hh, Hempty, app_nil_r. reflexivity.
Qed.

(** One action of the producer or of the worker, from a reachable
    state [R] to the next. *)
Ltac worker_put R task :=
  match type of R with
  | BGRunner.reachable ?f ?w ?s =>
      apply (fun H => BGRunner.reach_step f w s _ H (BGRunner.step_put f s task)) in R;
      cbn in R
  end.

Ltac worker_get R :=
  match type of R with
  | BGRunner.reachable ?f ?w ?s =>
      let q := eval cbn in (BGRunner.tasks s) in
      match q with
      | (?h, ?i) :: ?rest =>
          apply (fun H => BGRunner.reach_step f w s _ H
                            (BGRunner.step_get f s h i rest eq_refl eq_refl)) in R;
          cbn in R
      end
  end.

Ltac worker_result R :=
  match type of R with
  | BGRunner.reachable ?f ?w ?s =>
      let c := eval cbn in (BGRunner.at_ s) in
      match c with
      | BGRunner.Got ?h ?i =>
          let o := eval cbv in (f h i (BGRunner.world s)) in
          match o with
          | (Ret ?r, ?w') =>
              apply (fun H => BGRunner.reach_step f w s _ H
                                (BGRunner.step_result f s h i r w' eq_refl eq_refl)) in R;
              cbn in R
          end
      end
  end.

Ltac worker_break R :=
  match type of R with
  | BGRunner.reachable ?f ?w ?s =>
      apply (fun H => BGRunner.reach_step f w s _ H
                        (BGRunner.step_break f s eq_refl eq_refl)) in R;
      cbn in R
  end.

Lemma bgrunner_signals_fifo_done_last_witness :
  (exists rest,
      map snd (BGRunner.history Sim.drained)
      = (BGRunner.images (BGRunner.emitted Sim.drained) ++ rest)%list)
  /\ (forall n code,
         nth_error (BGRunner.emitted Sim.drained) n = Some (BGRunner.Done code) ->
         S n = List.length (BGRunner.emitted Sim.drained))
  /\ (BGRunner.at_ Sim.drained = BGRunner.Finished ->
      (exists l, BGRunner.emitted Sim.drained = (l ++ [BGRunner.Done 0%Z])%list
                 /\ List.length l
                    = List.length (BGRunner.images (BGRunner.emitted Sim.drained)))
      /\ (BGRunner.tasks Sim.drained = [] ->
          BGRunner.images (BGRunner.emitted Sim.drained)
          = map snd (BGRunner.history Sim.drained))).
Proof.
  apply (bgrunner_signals_fifo_done_last Sim.uploads_ok tt Sim.drained).
  pose proof (BGRunner.reach_initial Sim.uploads_ok tt) as R.
  worker_put R ("77", "/in/a.tif").
  worker_get R.
  worker_put R ("77", "/in/b.tif").
  worker_result R.
  worker_get R.
  worker_result R.
  worker_break R.
  exact R.
Defined.

(** The loop run as a function agrees with the transition system: on a
    queue filled beforehand, when every upload returns, the worker
    reaches the end of [run] with the queue empty, one outcome a task
    and [Done] last. *)
Section RunnerProgress.
Context {W : Type}.
Variable uploader_run : string -> string -> W -> result Z * W.

Import BGRunner.

Lemma puts_reachable w0 queue :
  reachable uploader_run w0
    {| tasks := queue; history := queue; emitted := []; at_ := LoopHead; world := w0 |}.
Proof.
  induction queue as [|task queue IH] using rev_ind.
  - apply reach_initial.
  - exact (reach_step uploader_run w0 _ _ IH (step_put uploader_run _ task)).
Qed.

Lemma run_from w0 queue :
  forall s l w',
    reachable uploader_run w0 s ->
    at_ s = LoopHead ->
    tasks s = queue ->
    run uploader_run queue (world s) = (l, Finished, w') ->
    reachable uploader_run w0
      {| tasks := []; history := history s; emitted := emitted s ++ l;
         at_ := Finished; world := w' |}.
Proof.
  induction queue as [|[hawb image] rest IH]; intros s l w' Hreach Hhead Htasks Hrun;
    cbn [run] in Hrun.
  - inversion Hrun; subst.
    exact (reach_step uploader_run w0 _ _ Hreach (step_break uploader_run s Hhead Htasks)).
  - destruct (uploader_run hawb image (world s)) as [[r|e|] w1] eqn:Hup.
    + destruct (run uploader_run rest w1) as [[l1 c1] w2] eqn:Hrest.
      inversion Hrun; subst.
      pose proof (reach_step uploader_run w0 _ _ Hreach
                    (step_get uploader_run s hawb image rest Hhead Htasks)) as Hgot.
      pose proof (reach_step uploader_run w0 _ _ Hgot
                    (step_result uploader_run
                       {| tasks := rest; history := history s; emitted := emitted s;
                          at_ := Got hawb image; world := world s |}
                       hawb image r w1 eq_refl Hup)) as Hres.
      specialize (IH _ l1 w' Hres eq_refl eq_refl Hrest).
      cbn [history emitted] in IH. rewrite <- app_assoc in IH. exact IH.
    + discriminate.
    + discriminate.
Qed.

Lemma run_reachable w0 queue l w' :
  run uploader_run queue w0 = (l, Finished, w') ->
  reachable uploader_run w0
    {| tasks := []; history := queue; emitted := l; at_ := Finished; world := w' |}.
Proof.
  intros Hrun.
  exact (run_from w0 queue _ l w' (puts_reachable w0 queue) eq_refl eq_refl Hrun).
Qed.

Lemma run_finishes :
  (forall hawb image w, exists r w', uploader_run hawb image w = (Ret r, w')) ->
  forall queue w,
    snd (fst (run uploader_run queue w)) = Finished
    /\ images (fst (fst (run uploader_run queue w))) = map snd queue.
Proof.
  intros Hreturns queue. induction queue as [|[hawb image] rest IH]; intros w; cbn [run].
  - split; reflexivity.
  - destruct (Hreturns hawb image w) as (r & w1 & Hup). rewrite Hup.
    specialize (IH w1). destruct (run uploader_run rest w1) as [[l c] w2].
    cbn [fst snd] in *. destruct IH as [Hc Hl].
    split; [exact Hc|]. cbn [images map snd]. rewrite Hl. reflexivity.
Qed.

End RunnerProgress.

(** * Further properties of the module *)

(** ** SizeBounder *)

(** X1: whatever the file and the platform, [compress_image] comes to
    an end: it returns or it raises, its loop never goes on for ever. *)
Theorem compress_image_always_ends {P : Platform} image_path w :
  (exists w' t, compress_image image_path w = (Ret tt, w', t))
  \/ (exists e w' t, compress_image image_path w = (Raise e, w', t)).
Proof.
  pose proof (compress_image_terminates image_path w) as Hend.
  destruct (compress_image image_path w) as [[[[]|e|] w'] t].
  - left. exists w', t. reflexivity.
  - right. exists e, w', t. reflexivity.
  - contradiction Hend. reflexivity.
Qed.

(** X2: on every input on which the loop of [compress_image] ends
    without an exception it made at most 51 re-encode passes, as many
    as its counter says, and it stopped with the file within the limit
    or with the counter at 51. *)
Theorem compress_image_pass_bound {P : Platform} image_path w passes size w' t :
  compress_image_locals compress_fuel image_path w = (Ret (passes, size), w', t) ->
  (0 <= passes <= 51)%Z
  /\ ((size <= FILE_SIZE_LIMIT)%Z \/ passes = 51%Z)
  /\ Z.of_nat (re_encodes t) = passes.
Proof.
  unfold compress_image_locals, bind, call.
  destruct (os_stat_st_size image_path w) as [[z|e] wa]; [|discriminate].
  destruct (compress_loop compress_fuel image_path 0 z wa) as [[r wb] tb] eqn:Hloop.
  intros H. inversion H; subst.
  destruct (compress_loop_stops _ _ _ _ _ _ _ _ _ Hloop) as (Hb & Hstop & Hcount).
  - unfold MAX_RESIZE_PASSES. lia.
  - cbn [re_encodes]. unfold MAX_RESIZE_PASSES in *.
    split; [lia|]. split; [|lia].
    destruct Hstop as [Hsmall | Hmax]; [left; exact Hsmall | right; lia].
Qed.

Lemma compress_image_pass_bound_witness :
  exists w' t,
    compress_image_locals (P := Sim.platform) compress_fuel "/in/scan.tif" Sim.rejected_once
    = (Ret (3%Z, 786932%Z), w', t)
    /\ (0 <= 3 <= 51)%Z
    /\ ((786932 <= FILE_SIZE_LIMIT)%Z \/ 3%Z = 51%Z)
    /\ Z.of_nat (re_encodes t) = 3%Z.
Proof.
  do 2 eexists. split.
  - vm_compute. reflexivity.
  - eapply (compress_image_pass_bound (P := Sim.platform) "/in/scan.tif" Sim.rejected_once).
    vm_compute. reflexivity.
Defined.

(** X3: a file that is within the size limit is left alone: its size
    is read once and no image is opened or written. *)
Theorem compress_image_within_limit {P : Platform} image_path w size w1 :
  os_stat_st_size image_path w = (Returned size, w1) ->
  (size <= FILE_SIZE_LIMIT)%Z ->
  compress_image image_path w = (Ret tt, w1, [OsStat image_path]).
Proof.
  intros Hstat Hsmall.
  unfold compress_image, compress_image_locals, bind, call. rewrite Hstat.
  unfold compress_fuel. cbn [compress_loop].
  assert (Hgt : (size >? FILE_SIZE_LIMIT)%Z = false).
  { rewrite Z.gtb_ltb. apply Z.ltb_ge. exact Hsmall. }
  rewrite Hgt. reflexivity.
Qed.

Lemma compress_image_within_limit_witness :
  compress_image (P := Sim.platform) "/in/scan.tif" (Sim.answering 200 "stored")
  = (Ret tt, Sim.answering 200 "stored", [OsStat "/in/scan.tif"]).
Proof.
  apply (compress_image_within_limit (P := Sim.platform) "/in/scan.tif"
           (Sim.answering 200 "stored") 4100%Z).
  - reflexivity.
  - unfold FILE_SIZE_LIMIT. lia.
Defined.

(** X4: a pass asks for a thumbnail that is strictly smaller than the
    image in width and in height, four fifths of each rounded down. *)
Theorem compress_pass_shrinks {P : Platform} image_path w width height w1 :
  image_open_size image_path w = (Returned (width, height), w1) ->
  (0 < width)%Z -> (0 < height)%Z ->
  exists r w2 width' height' rest,
    compress_pass image_path w
    = (r, w2, ImageOpen image_path :: ThumbnailSave image_path (width', height') :: rest)
    /\ (0 <= width' < width)%Z /\ (0 <= height' < height)%Z
    /\ (4 * width - 4 <= 5 * width' <= 4 * width)%Z
    /\ (4 * height - 4 <= 5 * height' <= 4 * height)%Z.
Proof.
  intros Hopen Hw Hh. unfold compress_pass, bind, call. rewrite Hopen. cbn [fst snd].
  assert (Hdim : forall x, (0 < x)%Z ->
                 (0 <= downsize_dim x < x)%Z
                 /\ (4 * x - 4 <= 5 * downsize_dim x <= 4 * x)%Z).
  { intros x Hx. unfold downsize_dim.
    pose proof (Z.div_mod (x * 4) 5 ltac:(lia)) as Hdm.
    pose proof (Z.mod_pos_bound (x * 4) 5 ltac:(lia)) as Hmod. lia. }
  destruct (Hdim width Hw) as [Hw1 Hw2]. destruct (Hdim height Hh) as [Hh1 Hh2].
  destruct (image_thumbnail_save image_path _ w1) as [[[]|e] w2].
  - destruct (os_stat_st_size image_path w2) as [[z|e] w3];
      do 5 eexists; (split; [reflexivity|]); repeat split; lia.
  - do 5 eexists. split; [reflexivity|]. repeat split; lia.
Qed.

Lemma compress_pass_shrinks_witness :
  exists r w2 width' height' rest,
    compress_pass (P := Sim.platform) "/in/scan.tif" Sim.rejected_once
    = (r, w2, ImageOpen "/in/scan.tif" :: ThumbnailSave "/in/scan.tif" (width', height') :: rest)
    /\ (0 <= width' < 1000)%Z /\ (0 <= height' < 1000)%Z
    /\ (4 * 1000 - 4 <= 5 * width' <= 4 * 1000)%Z
    /\ (4 * 1000 - 4 <= 5 * height' <= 4 * 1000)%Z.
Proof.
  apply (compress_pass_shrinks (P := Sim.platform) "/in/scan.tif" Sim.rejected_once
           1000%Z 1000%Z Sim.rejected_once).
  - reflexivity.
  - lia.
  - lia.
Defined.

(** ** Uploader *)

(** The step of the retry cycle: after a 500 that carries the marker,
    [upload_image] is [compress_image] and then itself again. *)
Lemma upload_image_retry_step {P : Platform} depth image_path w resp w1 :
  session_send image_path w = (Returned resp, w1) ->
  size_limit_exceeded (status resp) (body resp) = true ->
  upload_image (S depth) image_path w
  = (let '(r, w2, t2) :=
       (compress_image image_path ;; upload_image depth image_path) w1 in
     (r, w2, SessionSend image_path :: t2)).
Proof.
  intros Hsend Htrigger.
  assert (H500 : status resp = 500%Z).
  { unfold size_limit_exceeded in Htrigger.
    apply andb_true_iff in Htrigger as [H500 _]. apply Z.eqb_eq. exact H500. }
  assert (H200 : (status resp =? 200)%Z = false) by (rewrite H500; reflexivity).
  assert (Hrange : ((400 <=? status resp) && (status resp <? 600))%Z = true)
    by (rewrite H500; reflexivity).
  cbn [upload_image]. unfold try_except.
  rewrite (post_response _ _ _ _ Hsend), H200, Hrange, Htrigger.
  destruct ((compress_image image_path ;; upload_image depth image_path) w1)
    as [[r w2] t2].
  reflexivity.
Qed.

(** X5: an exception of the send that is none of [requests]' own, such
    as the [OSError] of a file that cannot be opened, is not caught:
    it leaves [upload_image], and nothing is reported. *)
Theorem upload_image_os_error_escapes {P : Platform} depth image_path w e w1 :
  session_send image_path w = (Raised e, w1) ->
  (exists d, e = OSError d) \/ (exists d, e = OtherError d) ->
  upload_image (S depth) image_path w = (Raise e, w1, [SessionSend image_path]).
Proof.
  intros Hsend He. cbn [upload_image]. unfold try_except.
  rewrite (post_raise _ _ _ _ Hsend).
  destruct He as [[d ->] | [d ->]]; reflexivity.
Qed.

Lemma upload_image_os_error_escapes_witness :
  upload_image (P := Sim.platform) 1 "/in/missing.tif" Sim.heavy_scan
  = (Raise (OSError "FileNotFoundError"), Sim.heavy_scan, [SessionSend "/in/missing.tif"]).
Proof.
  apply (upload_image_os_error_escapes (P := Sim.platform) 0 "/in/missing.tif" Sim.heavy_scan).
  - reflexivity.
  - left. eexists. reflexivity.
Defined.

(** X6: when the server asks for a smaller file and [compress_image]
    raises, the exception leaves [upload_image]: nothing is reported
    and the upload is not tried again. *)
Theorem upload_image_compress_error_escapes {P : Platform}
        depth image_path w resp w1 e w2 t :
  session_send image_path w = (Returned resp, w1) ->
  size_limit_exceeded (status resp) (body resp) = true ->
  compress_image image_path w1 = (Raise e, w2, t) ->
  upload_image (S depth) image_path w = (Raise e, w2, SessionSend image_path :: t).
Proof.
  intros Hsend Htrigger Hcompress.
  rewrite (upload_image_retry_step depth image_path w resp w1 Hsend Htrigger).
  unfold bind. rewrite Hcompress. reflexivity.
Qed.

Lemma upload_image_compress_error_escapes_witness :
  upload_image (P := Sim.platform) 1 "/in/scan.tif" Scenes.unreadable_large
  = (Raise (OSError "cannot identify image file"),
     {| Sim.posix := true; Sim.files := Sim.files Scenes.unreadable_large;
        Sim.transport := [] |},
     [SessionSend "/in/scan.tif"; OsStat "/in/scan.tif"; ImageOpen "/in/scan.tif"]).
Proof.
  apply (upload_image_compress_error_escapes (P := Sim.platform) 0 "/in/scan.tif"
           Scenes.unreadable_large
           {| status := 500; body := "SizeLimitExceededException: too large" |}
           {| Sim.posix := true; Sim.files := Sim.files Scenes.unreadable_large;
              Sim.transport := [] |}).
  - reflexivity.
  - reflexivity.
  - reflexivity.
Defined.

(** X7: the retry cycle has no bound of its own.  Under a server that
    answers every send with the size-limit error, while
    [compress_image] returns, [upload_image] never comes to an end:
    whatever nesting of retries is allowed, it is used up. *)
Theorem upload_image_never_gives_up {P : Platform} image_path :
  (forall w, exists resp w1,
      session_send image_path w = (Returned resp, w1)
      /\ size_limit_exceeded (status resp) (body resp) = true) ->
  (forall w, exists w1 t, compress_image image_path w = (Ret tt, w1, t)) ->
  forall depth w, fst (fst (upload_image depth image_path w)) = OutOfFuel.
Proof.
  intros Hserver Hcompress depth.
  induction depth as [|depth IH]; intros w; [reflexivity|].
  destruct (Hserver w) as (resp & w1 & Hsend & Htrigger).
  rewrite (upload_image_retry_step depth image_path w resp w1 Hsend Htrigger).
  unfold bind. destruct (Hcompress w1) as (w2 & t & Hc). rewrite Hc.
  specialize (IH w2). destruct (upload_image depth image_path w2) as [[r w3] t3].
  cbn [fst] in *. exact IH.
Qed.

Lemma upload_image_never_gives_up_witness :
  fst (fst (upload_image (P := Stubborn.platform) 1000 "/in/scan.tif" tt)) = OutOfFuel.
Proof.
  apply (upload_image_never_gives_up (P := Stubborn.platform) "/in/scan.tif").
  - intros []. exists Stubborn.rejection, tt. split; reflexivity.
  - intros []. exists tt, [OsStat "/in/scan.tif"]. reflexivity.
Defined.

(** ** PathMover *)

(** X8: no exception leaves [rename_path].  It returns the destination
    it computed, having reported nothing, or it returns [False], and
    then the last thing it did was to report the move that failed and
    the exception that stopped it. *)
Theorem rename_path_never_raises {P : Platform} self path w :
  (exists w' t,
      rename_path self path w
      = (Ret (Some (renamed_path (timestamp self) (hawb_number self) path)), w', t)
      /\ existsb reports t = false)
  \/ (exists w' t e,
         rename_path self path w
         = (Ret None, w',
            t ++ [Stderr ("Could not rename " ++ path ++ " to "
                            ++ renamed_path (timestamp self) (hawb_number self) path);
                  Stderr (repr e)])%list
         /\ existsb reports t = false).
Proof.
  unfold rename_path, rename, try_except, bind, call, ret, error, emit.
  generalize (renamed_path (timestamp self) (hawb_number self) path). intros dst.
  destruct (os_renames path dst w) as [[[]|e1] w1].
  - left. do 2 eexists. split; reflexivity.
  - destruct (is_OSError e1).
    + destruct (shutil_rmtree dst w1) as [[[]|e2] w2].
      * destruct (os_renames path dst w2) as [[[]|e3] w3].
        -- left. do 2 eexists. split; reflexivity.
        -- right. exists w3, [OsRenames path dst; ShutilRmtree dst; OsRenames path dst], e3.
           split; reflexivity.
      * right. exists w2, [OsRenames path dst; ShutilRmtree dst], e2. split; reflexivity.
    + right. exists w1, [OsRenames path dst], e1. split; reflexivity.
Qed.

(** X9: when clearing the destination fails, the move is not tried
    again: [rename_path] reports the exception of [shutil.rmtree], not
    the one of the move, and returns [False]. *)
Theorem rename_path_clearing_fails {P : Platform} self path w e1 w1 e2 w2 :
  let dst := renamed_path (timestamp self) (hawb_number self) path in
  os_renames path dst w = (Raised e1, w1) ->
  is_OSError e1 = true ->
  shutil_rmtree dst w1 = (Raised e2, w2) ->
  rename_path self path w
  = (Ret None, w2,
     [OsRenames path dst; ShutilRmtree dst;
      Stderr ("Could not rename " ++ path ++ " to " ++ dst); Stderr (repr e2)]).
Proof.
  intros dst Hfirst Hos Hclear.
  unfold rename_path, rename, try_except, bind, call, ret, error, emit.
  fold dst. rewrite Hfirst, Hos, Hclear. reflexivity.
Qed.

Lemma rename_path_clearing_fails_witness :
  rename_path (P := Sim.platform) (Sim.uploader "77" true) "/in/a.jpg" (Sim.occupied false)
  = (Ret None, Sim.occupied false,
     [OsRenames "/in/a.jpg" "/in/h77-20180307-090542.jpg";
      ShutilRmtree "/in/h77-20180307-090542.jpg";
      Stderr "Could not rename /in/a.jpg to /in/h77-20180307-090542.jpg";
      Stderr (repr (OSError "NotADirectoryError"))]).
Proof.
  apply (rename_path_clearing_fails (P := Sim.platform) (Sim.uploader "77" true) "/in/a.jpg"
           (Sim.occupied false) (OSError "FileExistsError") (Sim.occupied false)
           (OSError "NotADirectoryError") (Sim.occupied false)).
  - reflexivity.
  - reflexivity.
  - reflexivity.
Defined.

(** ** FormatConverter *)

Section StringFacts.

Lemma length_append a b : String.length (a ++ b) = String.length a + String.length b.
Proof. induction a as [|c a IH]; cbn; [reflexivity|]. rewrite IH. reflexivity. Qed.

Lemma drop_append a b : PyStr.drop (String.length a) (a ++ b) = b.
Proof. induction a as [|c a IH]; cbn; [destruct b; reflexivity|exact IH]. Qed.

Lemma take_append a b : PyStr.take (String.length a) (a ++ b) = a.
Proof. induction a as [|c a IH]; cbn; [destruct b; reflexivity|]. rewrite IH. reflexivity. Qed.

Lemma take_drop n s : PyStr.take n s ++ PyStr.drop n s = s.
Proof.
  revert s. induction n as [|n IH]; intros s; [reflexivity|].
  destruct s as [|c s]; cbn; [reflexivity|]. rewrite IH. reflexivity.
Qed.

Lemma lower_append a b : PyStr.lower (a ++ b) = PyStr.lower a ++ PyStr.lower b.
Proof. induction a as [|c a IH]; cbn; [reflexivity|]. rewrite IH. reflexivity. Qed.

Lemma append_assoc a b c : (a ++ b) ++ c = a ++ b ++ c.
Proof. induction a as [|x a IH]; cbn; [reflexivity|]. rewrite IH. reflexivity. Qed.

(** A text ends with what was appended to it last. *)
Lemma endswith_append a b : PyStr.endswith (a ++ b) b = true.
Proof.
  unfold PyStr.endswith. rewrite length_append.
  replace (String.length a + String.length b - String.length b) with (String.length a) by lia.
  rewrite drop_append, String.eqb_refl.
  apply andb_true_iff. split; [apply Nat.leb_le; lia|reflexivity].
Qed.

Lemma startswith_split s p : PyStr.startswith s p = true -> s = p ++ PyStr.drop (String.length p) s.
Proof.
  unfold PyStr.startswith. revert s. induction p as [|c p IH]; intros s H.
  - destruct s; reflexivity.
  - destruct s as [|d s]; cbn in H; [discriminate|].
    destruct (ascii_dec c d) as [->|]; [|discriminate].
    cbn. rewrite <- (IH s H). reflexivity.
Qed.

End StringFacts.

(** X10: converting twice is converting once.  Whatever path
    [convert_image] returns names a file in the wire format, so
    converting that path again returns it as it is and touches
    nothing. *)
Theorem convert_image_idempotent {P : Platform} image_path w converted w1 t w2 :
  convert_image image_path w = (Ret (Some converted), w1, t) ->
  convert_image converted w2 = (Ret (Some converted), w2, []).
Proof.
  unfold convert_image at 1.
  destruct (PyStr.endswith (PyStr.lower image_path) ".tif"
            || PyStr.endswith (PyStr.lower image_path) ".tiff") eqn:Htif.
  - unfold ret. intros H. inversion H; subst.
    unfold convert_image. rewrite Htif. reflexivity.
  - unfold try_except, bind, call, ret, error, emit.
    destruct (image_save_tiff image_path _ w) as [[[]|e] wa].
    + intros H. inversion H; subst.
      unfold convert_image.
      rewrite lower_append. change (PyStr.lower ".tif") with ".tif".
      rewrite endswith_append. reflexivity.
    + destruct (is_OSError e); intros H; discriminate.
Qed.

Lemma convert_image_idempotent_witness :
  convert_image (P := Sim.platform) "/in/a.tif" Sim.heavy_scan
  = (Ret (Some "/in/a.tif"), Sim.heavy_scan, []).
Proof.
  eapply (convert_image_idempotent (P := Sim.platform) "/in/a.jpg" Sim.two_scans).
  vm_compute. reflexivity.
Defined.

(** X11: a file that is not in the wire format and cannot be converted.
    An [OSError] of the imaging library is reported and
    [convert_image] returns [False]; any other exception leaves it. *)
Theorem convert_image_failure {P : Platform} image_path w e w1 :
  PyStr.endswith (PyStr.lower image_path) ".tif" = false ->
  PyStr.endswith (PyStr.lower image_path) ".tiff" = false ->
  image_save_tiff image_path (fst (OsPath.splitext image_path) ++ ".tif") w = (Raised e, w1) ->
  convert_image image_path w
  = if is_OSError e
    then (Ret None, w1,
          [SaveTiff image_path (fst (OsPath.splitext image_path) ++ ".tif");
           Stderr "OS Error during conversion"; Stderr (repr e)])
    else (Raise e, w1, [SaveTiff image_path (fst (OsPath.splitext image_path) ++ ".tif")]).
Proof.
  intros Htif Htiff Hsave. unfold convert_image. rewrite Htif, Htiff. cbn [orb].
  unfold try_except, bind, call, ret, error, emit. rewrite Hsave.
  destruct (is_OSError e); reflexivity.
Qed.

Lemma convert_image_failure_witness :
  convert_image (P := Sim.platform) "/in/notes.txt" Sim.not_an_image
  = (Ret None, Sim.not_an_image,
     [SaveTiff "/in/notes.txt" "/in/notes.tif";
      Stderr "OS Error during conversion"; Stderr (repr (OSError "cannot identify image file"))]).
Proof.
  apply (convert_image_failure (P := Sim.platform) "/in/notes.txt" Sim.not_an_image
           (OSError "cannot identify image file") Sim.not_an_image).
  - reflexivity.
  - reflexivity.
  - reflexivity.
Defined.

(** ** Namer *)

Section SearchFacts.

Lemma prefix_length p s : String.prefix p s = true -> String.length p <= String.length s.
Proof.
  revert s. induction p as [|a p IH]; intros [|b s]; cbn [String.prefix String.length];
    try lia; try discriminate.
  destruct (ascii_dec a b); [|discriminate].
  intros H. apply IH in H. lia.
Qed.

Lemma prefix_take p m s :
  String.prefix p s = true -> String.length p <= m -> String.prefix p (PyStr.take m s) = true.
Proof.
  revert m s. induction p as [|a p IH]; intros m [|b s]; cbn [String.prefix String.length];
    try discriminate.
  - intros _ _. destruct (PyStr.take m ""); reflexivity.
  - intros _ _. destruct (PyStr.take m (String b s)); reflexivity.
  - destruct (ascii_dec a b) as [Hab|]; [|discriminate].
    intros Hp Hm. destruct m as [|m]; [lia|].
    cbn [PyStr.take String.prefix]. destruct (ascii_dec a b); [|contradiction].
    apply IH; [exact Hp|lia].
Qed.

Lemma prefix_of_take p m s :
  String.prefix p (PyStr.take m s) = true -> String.prefix p s = true.
Proof.
  revert m s. induction p as [|a p IH]; intros m [|b s].
  - reflexivity.
  - reflexivity.
  - destruct m; cbn [PyStr.take String.prefix]; discriminate.
  - destruct m as [|m]; cbn [PyStr.take String.prefix]; [discriminate|].
    destruct (ascii_dec a b); [|discriminate]. apply IH.
Qed.

Lemma find_take m s l cp :
  find (fun cp => PyStr.startswith s (PyStr.utf8 cp)) l = Some cp ->
  String.length (PyStr.utf8 cp) <= m ->
  find (fun cp => PyStr.startswith (PyStr.take m s) (PyStr.utf8 cp)) l = Some cp.
Proof.
  unfold PyStr.startswith. induction l as [|x l IH]; cbn [find]; [discriminate|].
  destruct (String.prefix (PyStr.utf8 x) s) eqn:Hx.
  - intros H Hm. inversion H; subst. rewrite (prefix_take _ _ _ Hx Hm). reflexivity.
  - intros H Hm.
    destruct (String.prefix (PyStr.utf8 x) (PyStr.take m s)) eqn:Hx'.
    + apply prefix_of_take in Hx'. congruence.
    + exact (IH H Hm).
Qed.

(** A digit lies within the text, and it is still there when the text
    is cut behind it. *)
Lemma digit_width_le s : Re.digit_width s <= String.length s.
Proof.
  unfold Re.digit_width.
  destruct (find _ Re.decimal_digits) as [cp|] eqn:Hfind; [|lia].
  apply find_some in Hfind as [_ Hp]. exact (prefix_length _ _ Hp).
Qed.

Lemma digit_width_take m s n :
  Re.digit_width s = S n -> S n <= m -> Re.digit_width (PyStr.take m s) = S n.
Proof.
  unfold Re.digit_width.
  destruct (find _ Re.decimal_digits) as [cp|] eqn:Hfind; [|discriminate].
  intros Hn Hm. rewrite (find_take m s _ cp Hfind) by lia. exact Hn.
Qed.

Lemma digits_from_skip k s : Re.digits_from k s = Re.digits_from 0 (PyStr.drop k s).
Proof.
  revert k. induction s as [|c s IH]; intros [|k]; try reflexivity.
  cbn [Re.digits_from PyStr.drop]. apply IH.
Qed.

Lemma digits_from_unfold s :
  Re.digits_from 0 s
  = match Re.digit_width s with
    | O => []
    | S n => S n :: Re.digits_from 0 (PyStr.drop (S n) s)
    end.
Proof.
  destruct s as [|c s].
  - pose proof (digit_width_le "") as H. cbn [String.length] in H.
    destruct (Re.digit_width ""); [reflexivity|lia].
  - cbn [Re.digits_from PyStr.drop].
    destruct (Re.digit_width (String c s)); [reflexivity|].
    rewrite digits_from_skip. reflexivity.
Qed.

Lemma digits_from_bound s : forall k, list_sum (Re.digits_from k s) <= String.length s - k.
Proof.
  induction s as [|c s IH]; intros k; [cbn; lia|].
  destruct k as [|k]; cbn [Re.digits_from String.length].
  - pose proof (digit_width_le (String c s)) as Hle. cbn [String.length] in Hle.
    destruct (Re.digit_width (String c s)) as [|n]; [cbn; lia|].
    cbn [list_sum fold_right]. specialize (IH n). unfold list_sum in IH. lia.
  - specialize (IH k). lia.
Qed.

Lemma list_sum_firstn j l : list_sum (firstn j l) <= list_sum l.
Proof.
  revert j. induction l as [|x l IH]; intros [|j]; cbn [firstn list_sum fold_right]; try lia.
  specialize (IH j). unfold list_sum in IH. lia.
Qed.

Lemma digit_bytes_le j s : Re.digit_bytes j s <= String.length s.
Proof.
  unfold Re.digit_bytes.
  pose proof (list_sum_firstn j (Re.digits_from 0 s)).
  pose proof (digits_from_bound s 0). lia.
Qed.

Lemma length_take n s : n <= String.length s -> String.length (PyStr.take n s) = n.
Proof.
  revert s. induction n as [|n IH]; intros s Hn; [reflexivity|].
  destruct s as [|c s]; cbn [String.length] in Hn; [lia|].
  cbn [PyStr.take String.length]. rewrite IH by lia. reflexivity.
Qed.

Lemma drop_take a b s : PyStr.drop a (PyStr.take (a + b) s) = PyStr.take b (PyStr.drop a s).
Proof.
  revert s. induction a as [|a IH]; intros s; cbn [Nat.add PyStr.drop].
  - destruct (PyStr.take b s); reflexivity.
  - destruct s as [|c s]; cbn [PyStr.take PyStr.drop]; [destruct b; reflexivity|apply IH].
Qed.

(** The first [j] digits of a text, cut out of it, are [j] digits. *)
Lemma digits_from_take j :
  forall s, j <= Re.count_digits s ->
    Re.digits_from 0 (PyStr.take (Re.digit_bytes j s) s) = firstn j (Re.digits_from 0 s).
Proof.
  unfold Re.count_digits, Re.digit_bytes.
  induction j as [|j IH]; intros s Hj.
  - cbn [firstn list_sum fold_right PyStr.take]. reflexivity.
  - rewrite (digits_from_unfold s) in *.
    destruct (Re.digit_width s) as [|n] eqn:Hw; [cbn in Hj; lia|].
    cbn [List.length firstn list_sum fold_right] in *.
    rewrite digits_from_unfold.
    rewrite (digit_width_take _ s n Hw) by lia.
    rewrite drop_take, IH by lia. reflexivity.
Qed.

Lemma take_digits j s :
  j <= Re.count_digits s ->
  Re.count_digits (PyStr.take (Re.digit_bytes j s) s) = j
  /\ decimal_text (PyStr.take (Re.digit_bytes j s) s) = true.
Proof.
  intros Hj. unfold decimal_text, Re.count_digits at 1.
  rewrite (digits_from_take j s Hj).
  rewrite length_firstn, (length_take _ _ (digit_bytes_le j s)).
  unfold Re.count_digits in Hj. split; [lia|]. apply Nat.eqb_refl.
Qed.


(** A count that [try_counts] settles on lies between the bounds. *)
Lemma try_counts_sound k lo cont m :
  Re.try_counts k lo cont = Some m ->
  exists j, lo <= j <= k /\ cont j = Some m.
Proof.
  induction k as [|k IH]; cbn [Re.try_counts].
  - destruct (0 <? lo)%nat eqn:Hlo; [discriminate|]. apply Nat.ltb_ge in Hlo.
    destruct (cont 0) as [m0|] eqn:Hc; [|discriminate].
    intros H. inversion H; subst. exists 0. split; [lia|exact Hc].
  - destruct (S k <? lo)%nat eqn:Hlo; [discriminate|]. apply Nat.ltb_ge in Hlo.
    destruct (cont (S k)) as [m0|] eqn:Hc.
    + intros H. inversion H; subst. exists (S k). split; [lia|exact Hc].
    + intros H. destruct (IH H) as (j & Hj & Hcj). exists j. split; [lia|exact Hcj].
Qed.

(** What [re.search] returns was matched at some position of the text. *)
Lemma search_sound p s g :
  Re.search p s = Some g ->
  exists pre rest n,
    s = pre ++ rest /\ Re.match_here p rest = Some n /\ g = PyStr.take n rest.
Proof.
  induction s as [|c s IH]; cbn [Re.search].
  - destruct (Re.match_here p "") as [n|] eqn:Hm; [|discriminate].
    intros H. inversion H. exists "", "", n. repeat split; assumption.
  - destruct (Re.match_here p (String c s)) as [n|] eqn:Hm.
    + intros H. inversion H. exists "", (String c s), n. repeat split; assumption.
    + intros H. destruct (IH H) as (pre & rest & n & Hs & Hn & Hg).
      exists (String c pre), rest, n. rewrite Hs. repeat split; assumption.
Qed.

End SearchFacts.

(** X12: the page marker that [get_new_filename] copies is a piece of
    the file name: the text [_page], then one to six decimal digits,
    of whatever script, and what follows it in the name does not start
    with [_page]. *)
Theorem page_search_sound filename marker :
  page_search filename = Some marker ->
  exists before digits after,
    filename = before ++ "_page" ++ digits ++ after
    /\ marker = "_page" ++ digits
    /\ 1 <= Re.count_digits digits <= 6
    /\ decimal_text digits = true
    /\ PyStr.startswith after "_page" = false.
Proof.
  intros Hsearch.
  destruct (search_sound _ _ _ Hsearch) as (pre & rest & n & Hs & Hn & Hg).
  unfold page_pattern in Hn. cbn [Re.match_here] in Hn.
  destruct (PyStr.startswith rest "_page") eqn:Hpre; [|discriminate].
  apply startswith_split in Hpre. cbn [String.length] in Hpre, Hn.
  set (tail := PyStr.drop 5 rest) in *.
  destruct (Re.try_counts (Nat.min 6 (Re.count_digits tail)) 1
              (fun k => option_map (Nat.add (Re.digit_bytes k tail))
                          (if PyStr.startswith (PyStr.drop (Re.digit_bytes k tail) tail) "_page"
                           then None else Some 0))) as [m|] eqn:Htry; [|discriminate].
  cbn [option_map] in Hn. inversion Hn as [Hn']. clear Hn.
  destruct (try_counts_sound _ _ _ _ Htry) as (j & Hj & Hcont).
  destruct (PyStr.startswith (PyStr.drop (Re.digit_bytes j tail) tail) "_page") eqn:Hnext;
    [discriminate|].
  cbn [option_map] in Hcont. inversion Hcont as [Hm]. clear Hcont.
  destruct (take_digits j tail ltac:(lia)) as [Hcount Hdigits].
  exists pre, (PyStr.take (Re.digit_bytes j tail) tail),
         (PyStr.drop (Re.digit_bytes j tail) tail).
  split; [|split; [|split; [|split]]].
  - rewrite take_drop, <- Hpre. exact Hs.
  - rewrite Hg, <- Hn', <- Hm, Nat.add_0_r.
    rewrite Hpre at 1. cbn [Nat.add PyStr.take append]. reflexivity.
  - rewrite Hcount. lia.
  - exact Hdigits.
  - exact Hnext.
Qed.

Lemma page_search_sound_witness :
  exists before digits after,
    "scan_page1" ++ PyStr.utf8 1634 ++ ".tif" = before ++ "_page" ++ digits ++ after
    /\ "_page1" ++ PyStr.utf8 1634 = "_page" ++ digits
    /\ 1 <= Re.count_digits digits <= 6
    /\ decimal_text digits = true
    /\ PyStr.startswith after "_page" = false.
Proof.
  apply (page_search_sound ("scan_page1" ++ PyStr.utf8 1634 ++ ".tif")
                           ("_page1" ++ PyStr.utf8 1634)).
  vm_compute. reflexivity.
Defined.

(** Digits outside ASCII: [\d] takes the ARABIC-INDIC DIGIT TWO
    (U+0662) as it takes [2], and leaves the SUPERSCRIPT TWO (U+00B2),
    which is no decimal digit. *)
Example page_marker_other_scripts :
  page_search ("a_page1" ++ PyStr.utf8 1634 ++ ".tif") = Some ("_page1" ++ PyStr.utf8 1634)
  /\ page_search ("a_page" ++ PyStr.utf8 1633 ++ PyStr.utf8 1634 ++ "_page3.tif")
     = Some ("_page" ++ PyStr.utf8 1633)
  /\ page_search ("a_page" ++ PyStr.utf8 178 ++ ".tif") = None.
Proof. vm_compute. repeat split. Qed.

(** X13: the new name is empty for an empty file name and for no
    other: an empty name is the sign not to rename. *)
Theorem get_new_filename_empty_iff ts hawb filename :
  get_new_filename ts hawb filename = "" <-> filename = "".
Proof.
  unfold get_new_filename. split.
  - destruct (String.eqb_spec filename "") as [Heq|Hne]; [intros _; exact Heq|].
    cbn. discriminate.
  - intros ->. reflexivity.
Qed.

Lemma startswith_append p x : PyStr.startswith (p ++ x) p = true.
Proof.
  unfold PyStr.startswith. induction p as [|c p IH]; cbn.
  - destruct x; reflexivity.
  - destruct (ascii_dec c c) as [_|Hne]; [exact IH|contradiction Hne; reflexivity].
Qed.

(** X14: the new name of a file starts with [h] and the identifier,
    and it ends with the extension of the old name. *)
Theorem get_new_filename_keeps_extension ts hawb filename :
  filename <> "" ->
  PyStr.startswith (get_new_filename ts hawb filename) ("h" ++ hawb) = true
  /\ PyStr.endswith (get_new_filename ts hawb filename)
                    (snd (OsPath.splitext filename)) = true.
Proof.
  intros Hne. unfold get_new_filename.
  apply String.eqb_neq in Hne. rewrite Hne.
  generalize (match page_search filename with Some g => g | None => "" end).
  generalize (snd (OsPath.splitext filename)). intros ext page.
  assert (Hext : (if negb (String.eqb ext "") then ext else "") = ext).
  { destruct (String.eqb_spec ext "") as [->|_]; reflexivity. }
  rewrite Hext. split.
  - rewrite <- (append_assoc "h" hawb). apply startswith_append.
  - rewrite <- !append_assoc. apply endswith_append.
Qed.

Lemma get_new_filename_keeps_extension_witness :
  PyStr.startswith (get_new_filename Sim.t0 "77" "scan_page3.JPG") ("h" ++ "77") = true
  /\ PyStr.endswith (get_new_filename Sim.t0 "77" "scan_page3.JPG")
                    (snd (OsPath.splitext "scan_page3.JPG")) = true.
Proof.
  apply (get_new_filename_keeps_extension Sim.t0 "77" "scan_page3.JPG"). discriminate.
Defined.

(** ** Pipeline *)

Section PipelineFacts.
Context {P : Platform}.

(** Renaming neither converts nor sends. *)
Lemma rename_path_local self path w :
  no_convert (snd (rename_path self path w)) /\ no_send (snd (rename_path self path w)).
Proof.
  unfold no_convert, no_send, rename_path, rename, try_except, bind, call, ret, error, emit.
  generalize (renamed_path (timestamp self) (hawb_number self) path). intros dst.
  destruct (os_renames path dst w) as [[[]|e1] w1]; cbn.
  - split; repeat constructor.
  - destruct (is_OSError e1); cbn; [|split; repeat constructor].
    destruct (shutil_rmtree dst w1) as [[[]|e2] w2]; cbn; [|split; repeat constructor].
    destruct (os_renames path dst w2) as [[[]|e3] w3]; cbn; split; repeat constructor.
Qed.

(** Converting does not send. *)
Lemma convert_image_no_send image_path w : no_send (snd (convert_image image_path w)).
Proof.
  unfold no_send, convert_image.
  destruct (PyStr.endswith (PyStr.lower image_path) ".tif"
            || PyStr.endswith (PyStr.lower image_path) ".tiff"); [constructor|].
  unfold try_except, bind, call, ret, error, emit.
  destruct (image_save_tiff image_path _ w) as [[[]|e] w1]; cbn; [repeat constructor|].
  destruct (is_OSError e); cbn; repeat constructor.
Qed.

Lemma pipeline_report_local self stage artifact :
  converts (pipeline_report self stage artifact) = false
  /\ sends (pipeline_report self stage artifact) = false.
Proof. unfold pipeline_report. destruct (silent self); split; reflexivity. Qed.

End PipelineFacts.

(** X15: [process_image] stops at the first stage that fails.  When
    the file cannot be renamed it makes one report and returns 1
    without converting or sending anything; when the renamed file
    cannot be converted it makes one report and returns 1 without
    sending anything. *)
Theorem process_image_stops_at_first_failure {P : Platform}
        depth self path w renamed w1 t1 :
  rename_path self path w = (Ret renamed, w1, t1) ->
  (is_truthy renamed = false ->
   process_image depth self path w
   = (Ret 1%Z, w1, (t1 ++ [pipeline_report self "rename" path])%list)
   /\ no_convert (t1 ++ [pipeline_report self "rename" path])
   /\ no_send (t1 ++ [pipeline_report self "rename" path]))
  /\ (is_truthy renamed = true ->
      forall converted w2 t2,
        convert_image (format_path renamed) w1 = (Ret converted, w2, t2) ->
        is_truthy converted = false ->
        process_image depth self path w
        = (Ret 1%Z, w2,
           (t1 ++ t2 ++ [pipeline_report self "convert" (format_path renamed)])%list)
        /\ no_send (t1 ++ t2 ++ [pipeline_report self "convert" (format_path renamed)])).
Proof.
  intros Hrename.
  destruct (rename_path_local self path w) as [Hc1 Hs1]. rewrite Hrename in Hc1, Hs1.
  cbn [snd] in Hc1, Hs1.
  split.
  - intros Hfalse. split; [|split].
    + unfold process_image, bind. rewrite Hrename, Hfalse.
      unfold error, bind, emit, ret, pipeline_report. destruct (silent self); reflexivity.
    + apply Forall_app. split; [exact Hc1|].
      constructor; [apply pipeline_report_local|constructor].
    + apply Forall_app. split; [exact Hs1|].
      constructor; [apply pipeline_report_local|constructor].
  - intros Htrue converted w2 t2 Hconvert Hfalse.
    pose proof (convert_image_no_send (format_path renamed) w1) as Hs2.
    rewrite Hconvert in Hs2. cbn [snd] in Hs2.
    split.
    + unfold process_image, bind. rewrite Hrename, Htrue, Hconvert, Hfalse.
      unfold error, bind, emit, ret, pipeline_report. destruct (silent self); reflexivity.
    + apply Forall_app. split; [exact Hs1|]. apply Forall_app. split; [exact Hs2|].
      constructor; [apply pipeline_report_local|constructor].
Qed.

Lemma process_image_stops_at_first_failure_witness :
  process_image (P := Sim.platform) 1 (Sim.uploader "77" true) "/in/a.jpg" (Sim.occupied false)
  = (Ret 1%Z, Sim.occupied false,
     [OsRenames "/in/a.jpg" "/in/h77-20180307-090542.jpg";
      ShutilRmtree "/in/h77-20180307-090542.jpg";
      Stderr "Could not rename /in/a.jpg to /in/h77-20180307-090542.jpg";
      Stderr "OSError(NotADirectoryError)";
      pipeline_report (Sim.uploader "77" true) "rename" "/in/a.jpg"])
  /\ no_convert
       [OsRenames "/in/a.jpg" "/in/h77-20180307-090542.jpg";
        ShutilRmtree "/in/h77-20180307-090542.jpg";
        Stderr "Could not rename /in/a.jpg to /in/h77-20180307-090542.jpg";
        Stderr "OSError(NotADirectoryError)";
        pipeline_report (Sim.uploader "77" true) "rename" "/in/a.jpg"]
  /\ no_send
       [OsRenames "/in/a.jpg" "/in/h77-20180307-090542.jpg";
        ShutilRmtree "/in/h77-20180307-090542.jpg";
        Stderr "Could not rename /in/a.jpg to /in/h77-20180307-090542.jpg";
        Stderr "OSError(NotADirectoryError)";
        pipeline_report (Sim.uploader "77" true) "rename" "/in/a.jpg"].
Proof.
  refine (proj1 (process_image_stops_at_first_failure (P := Sim.platform) 1
                   (Sim.uploader "77" true) "/in/a.jpg" (Sim.occupied false)
                   None (Sim.occupied false)
                   [OsRenames "/in/a.jpg" "/in/h77-20180307-090542.jpg";
                    ShutilRmtree "/in/h77-20180307-090542.jpg";
                    Stderr "Could not rename /in/a.jpg to /in/h77-20180307-090542.jpg";
                    Stderr "OSError(NotADirectoryError)"] _) _).
  - reflexivity.
  - reflexivity.
Defined.

(** X16: when the file was renamed and converted, the outcome of
    [process_image] is that of the upload: 0 and a message of success
    when [upload_image] returns [True], 1 and a report when it returns
    [False]; an exception of the upload leaves [process_image], with
    no code and no report. *)
Theorem process_image_outcome {P : Platform}
        depth self path w renamed w1 t1 converted w2 t2 r w3 t3 :
  rename_path self path w = (Ret renamed, w1, t1) ->
  is_truthy renamed = true ->
  convert_image (format_path renamed) w1 = (Ret converted, w2, t2) ->
  is_truthy converted = true ->
  upload_image depth (format_path converted) w2 = (r, w3, t3) ->
  process_image depth self path w
  = match r with
    | Ret true => (Ret 0%Z, w3, (t1 ++ t2 ++ t3 ++ [pipeline_success self])%list)
    | Ret false =>
        (Ret 1%Z, w3,
         (t1 ++ t2 ++ t3 ++ [pipeline_report self "upload" (format_path converted)])%list)
    | Raise e => (Raise e, w3, (t1 ++ t2 ++ t3)%list)
    | OutOfFuel => (OutOfFuel, w3, (t1 ++ t2 ++ t3)%list)
    end.
Proof.
  intros Hrename Hr Hconvert Hc Hupload.
  unfold process_image, bind. rewrite Hrename, Hr, Hconvert, Hc, Hupload.
  destruct r as [[|]|e|];
    unfold error, success, bind, emit, ret, pipeline_report, pipeline_success;
    destruct (silent self); reflexivity.
Qed.

Lemma process_image_outcome_witness :
  process_image (P := Sim.platform) 1 (Sim.uploader "77" true) "/in/a.jpg"
    Scenes.one_scan_accepted
  = (Ret 0%Z,
     {| Sim.posix := true;
        Sim.files := [("/in/h77-20180307-090542.jpg", Sim.File 100 (40, 30)%Z);
                      ("/in/h77-20180307-090542.tif", Sim.File 100 (40, 30)%Z)];
        Sim.transport := [] |},
     [OsRenames "/in/a.jpg" "/in/h77-20180307-090542.jpg";
      SaveTiff "/in/h77-20180307-090542.jpg" "/in/h77-20180307-090542.tif";
      SessionSend "/in/h77-20180307-090542.tif";
      pipeline_success (Sim.uploader "77" true)]).
Proof.
  refine (process_image_outcome (P := Sim.platform) 1 (Sim.uploader "77" true) "/in/a.jpg"
            Scenes.one_scan_accepted
            (Some "/in/h77-20180307-090542.jpg")
            {| Sim.posix := true;
               Sim.files := [("/in/h77-20180307-090542.jpg", Sim.File 100 (40, 30)%Z)];
               Sim.transport := Sim.transport Scenes.one_scan_accepted |}
            [OsRenames "/in/a.jpg" "/in/h77-20180307-090542.jpg"]
            (Some "/in/h77-20180307-090542.tif")
            {| Sim.posix := true;
               Sim.files := [("/in/h77-20180307-090542.jpg", Sim.File 100 (40, 30)%Z);
                             ("/in/h77-20180307-090542.tif", Sim.File 100 (40, 30)%Z)];
               Sim.transport := Sim.transport Scenes.one_scan_accepted |}
            [SaveTiff "/in/h77-20180307-090542.jpg" "/in/h77-20180307-090542.tif"]
            (Ret true)
            {| Sim.posix := true;
               Sim.files := [("/in/h77-20180307-090542.jpg", Sim.File 100 (40, 30)%Z);
                             ("/in/h77-20180307-090542.tif", Sim.File 100 (40, 30)%Z)];
               Sim.transport := [] |}
            [SessionSend "/in/h77-20180307-090542.tif"]
            _ _ _ _ _); reflexivity.
Defined.
(** ** Batch processing and the aggregator *)

Section QueueFacts.
Context {P : Platform}.

(** Putting a list of images on the queue leaves one [QueuePut] an
    image, in the order of the list. *)
Lemma puts_trace hawb image_paths w :
  mapM (fun x => emit (QueuePut hawb x)) image_paths w
  = (Ret (map (fun _ => tt) image_paths), w, map (QueuePut hawb) image_paths).
Proof.
  induction image_paths as [|x l IH]; cbn [mapM map]; [reflexivity|].
  unfold bind at 1. unfold emit at 1. unfold bind at 1. rewrite IH.
  unfold ret. cbn. rewrite app_nil_r. reflexivity.
Qed.

Lemma failures_nil results :
  failures results = [] <-> Forall (fun x => fst x = 0%Z) results.
Proof.
  unfold failures. induction results as [|[code image] l IH]; cbn [filter map fst].
  - split; [constructor|reflexivity].
  - destruct (code =? 0)%Z eqn:Hcode; cbn [negb].
    + apply Z.eqb_eq in Hcode. rewrite IH. split.
      * intros H. constructor; [exact Hcode|exact H].
      * intros H. inversion H; assumption.
    + apply Z.eqb_neq in Hcode. cbn [map]. split; [discriminate|].
      intros H. inversion H; subst. contradiction.
Qed.

End QueueFacts.

(** X17: in attended mode, when some image is left after renaming and
    conversion, [process_images] starts the worker thread first and
    then puts the images that are left on the queue, each with the
    uploader's identifier, in the order of the directory listing; it
    returns 0, the count of tasks is the number of those images and
    the list of results is empty. *)
Theorem process_images_queues_survivors {P : Platform} self directory w
        image_paths w1 t1 renamed w2 t2 converted w3 t3 :
  get_all_files directory w = (Ret image_paths, w1, t1) ->
  mapM (rename_path self) image_paths w1 = (Ret renamed, w2, t2) ->
  truthy renamed <> [] ->
  mapM convert_image (truthy renamed) w2 = (Ret converted, w3, t3) ->
  truthy converted <> [] ->
  silent self = false ->
  exists self',
    process_images self directory w
    = (Ret (0%Z, self'), w3,
       (t1 ++ t2 ++ t3
           ++ ThreadStart :: map (QueuePut (hawb_number self)) (truthy converted))%list)
    /\ tasks_queue self'
       = (tasks_queue self
            ++ map (fun x => (hawb_number self, x)) (truthy converted))%list
    /\ num_bg_tasks self' = Z.of_nat (List.length (truthy converted))
    /\ bg_results self' = [].
Proof.
  intros Hwalk Hrename Hr Hconvert Hc Hsilent.
  exists {| silent := silent self; verbose := verbose self; timestamp := timestamp self;
            hawb_number := hawb_number self;
            original_image_path := original_image_path self;
            bg_results := [];
            num_bg_tasks := Z.of_nat (List.length (truthy converted));
            tasks_queue := (tasks_queue self
                            ++ map (fun x => (hawb_number self, x)) (truthy converted))%list |}.
  split; [|split; [|split]].
  - unfold process_images, bind. rewrite Hwalk, Hrename.
    destruct (truthy renamed) as [|f fs] eqn:Hrenamed; [contradiction|].
    cbn [List.length Nat.eqb]. rewrite Hconvert.
    destruct (truthy converted) as [|c cs] eqn:Hconverted; [contradiction|].
    cbn [List.length Nat.eqb].
    unfold start_uploader_thread, emit, queue_images_for_upload, bind.
    rewrite puts_trace. unfold ret. rewrite Hsilent. cbn [snd fst app].
    rewrite !app_nil_r. reflexivity.
  - reflexivity.
  - reflexivity.
  - reflexivity.
Qed.

Lemma process_images_queues_survivors_witness :
  exists self',
    process_images (P := Sim.platform) (Sim.uploader "77" false) "/in" Scenes.one_scan_accepted
    = (Ret (0%Z, self'),
       {| Sim.posix := true;
          Sim.files := [("/in/h77-20180307-090542.jpg", Sim.File 100 (40, 30)%Z);
                        ("/in/h77-20180307-090542.tif", Sim.File 100 (40, 30)%Z)];
          Sim.transport := Sim.transport Scenes.one_scan_accepted |},
       [OsWalk "/in";
        OsRenames "/in/a.jpg" "/in/h77-20180307-090542.jpg";
        SaveTiff "/in/h77-20180307-090542.jpg" "/in/h77-20180307-090542.tif";
        ThreadStart;
        QueuePut "77" "/in/h77-20180307-090542.tif"])
    /\ tasks_queue self' = [("77", "/in/h77-20180307-090542.tif")]
    /\ num_bg_tasks self' = 1%Z
    /\ bg_results self' = [].
Proof.
  apply (process_images_queues_survivors (P := Sim.platform) (Sim.uploader "77" false) "/in"
           Scenes.one_scan_accepted
           ["/in/a.jpg"] Scenes.one_scan_accepted [OsWalk "/in"]
           [Some "/in/h77-20180307-090542.jpg"]
           {| Sim.posix := true;
              Sim.files := [("/in/h77-20180307-090542.jpg", Sim.File 100 (40, 30)%Z)];
              Sim.transport := Sim.transport Scenes.one_scan_accepted |}
           [OsRenames "/in/a.jpg" "/in/h77-20180307-090542.jpg"]
           [Some "/in/h77-20180307-090542.tif"]
           {| Sim.posix := true;
              Sim.files := [("/in/h77-20180307-090542.jpg", Sim.File 100 (40, 30)%Z);
                            ("/in/h77-20180307-090542.tif", Sim.File 100 (40, 30)%Z)];
              Sim.transport := Sim.transport Scenes.one_scan_accepted |}
           [SaveTiff "/in/h77-20180307-090542.jpg" "/in/h77-20180307-090542.tif"]).
  - reflexivity.
  - reflexivity.
  - discriminate.
  - reflexivity.
  - discriminate.
  - reflexivity.
Defined.

(** X19: [examine_bg_results] returns the number of outcomes whose
    code is not 0, and it reports a failure exactly when there is
    one. *)
Theorem examine_bg_results_verdict {P : Platform} self w :
  fst (fst (examine_bg_results self w))
  = Ret (Z.of_nat (List.length (failures (bg_results self))))
  /\ (existsb reports (snd (examine_bg_results self w)) = false
      <-> Forall (fun x => fst x = 0%Z) (bg_results self)).
Proof.
  rewrite <- failures_nil. unfold examine_bg_results, examine.
  destruct (failures (bg_results self)) as [|f fs] eqn:Hf.
  - cbn [List.length Z.of_nat Z.gtb Z.ltb Z.compare].
    unfold success, bind, emit, ret. destruct (silent self); cbn; split; try reflexivity;
      split; reflexivity.
  - assert (Hpos : (Z.of_nat (List.length (f :: fs)) >? 0)%Z = true).
    { rewrite Z.gtb_ltb. apply Z.ltb_lt. cbn [List.length]. lia. }
    rewrite Hpos. unfold error, bind, emit, ret. destruct (silent self); cbn;
      split; try reflexivity; split; discriminate.
Qed.

From Stdlib Require Import Relations.

(** ** The background worker, continued *)

Section RunnerOutcomes.
Context {W : Type}.
Variable uploader_run : string -> string -> W -> result Z * W.

Import BGRunner.

(** Once [run] has returned, a step can only be a [put]. *)
Lemma finished_step s s' :
  at_ s = Finished -> step uploader_run s s' ->
  at_ s' = Finished /\ emitted s' = emitted s /\ exists task, tasks s' = (tasks s ++ [task])%list.
Proof.
  intros Hfin Hstep.
  destruct Hstep as [s task | s Hhead | s hawb image rest Hhead
                    | s hawb image r w' Hgot | s hawb image e w' Hgot];
    try congruence.
  cbn [at_ emitted tasks]. split; [exact Hfin|]. split; [reflexivity|].
  exists task. reflexivity.
Qed.

Lemma finished_steps s s' :
  clos_refl_trans_1n _ (step uploader_run) s s' ->
  at_ s = Finished ->
  at_ s' = Finished /\ emitted s' = emitted s /\ exists more, tasks s' = (tasks s ++ more)%list.
Proof.
  induction 1 as [s | s s1 s' Hstep _ IH]; intros Hfin.
  - split; [exact Hfin|]. split; [reflexivity|]. exists []. rewrite app_nil_r. reflexivity.
  - destruct (finished_step s s1 Hfin Hstep) as (Hfin1 & Hem1 & task & Htasks1).
    destruct (IH Hfin1) as (Hfin' & Hem' & more & Htasks').
    split; [exact Hfin'|]. split; [congruence|].
    exists (task :: more). rewrite Htasks', Htasks1, <- app_assoc. reflexivity.
Qed.

(** The outcomes of [run] follow the queue, and [Done] comes only
    after the last of them. *)
Lemma run_shape queue :
  forall w,
    let '(l, c, _) := run uploader_run queue w in
    (c = Finished ->
     exists results, l = (results ++ [Done 0%Z])%list
                     /\ images results = map snd queue
                     /\ List.length results = List.length queue)
    /\ (c <> Finished ->
        images l = firstn (List.length l) (map snd queue)
        /\ List.length l < List.length queue
        /\ Forall (fun sig => exists r image, sig = Result r image) l).
Proof.
  induction queue as [|[hawb image] rest IH]; intros w; cbn [run].
  - split.
    + intros _. exists []. repeat split.
    + intros H. contradiction H. reflexivity.
  - destruct (uploader_run hawb image w) as [[r|e|] w1].
    + specialize (IH w1). destruct (run uploader_run rest w1) as [[l c] w2].
      destruct IH as [IHfin IHnot]. split.
      * intros Hc. destruct (IHfin Hc) as (results & Hl & Him & Hlen).
        exists (Result r image :: results). rewrite Hl.
        cbn [app images map snd List.length]. rewrite Him, Hlen. repeat split.
      * intros Hc. destruct (IHnot Hc) as (Him & Hlen & Hres).
        cbn [images map snd List.length firstn]. rewrite <- Him.
        split; [reflexivity|]. split; [lia|].
        constructor; [exists r, image; reflexivity|exact Hres].
    + split; [discriminate|]. intros _. cbn. split; [reflexivity|]. split; [lia|constructor].
    + split; [discriminate|]. intros _. cbn. split; [reflexivity|]. split; [lia|constructor].
Qed.

End RunnerOutcomes.

(** X20: on a queue that was filled beforehand, when every upload
    returns, [run] emits one outcome a task, in the order of the queue,
    and [Done] after the last; this run is one of the runs of the
    worker beside a producer. *)
Theorem bgrunner_run_drains {W : Type}
        (uploader_run : string -> string -> W -> result Z * W) queue w0 :
  (forall hawb image w, exists r w', uploader_run hawb image w = (Ret r, w')) ->
  exists results w',
    BGRunner.run uploader_run queue w0 = ((results ++ [BGRunner.Done 0%Z])%list,
                                          BGRunner.Finished, w')
    /\ BGRunner.images results = map snd queue
    /\ List.length results = List.length queue
    /\ BGRunner.reachable uploader_run w0
         {| BGRunner.tasks := []; BGRunner.history := queue;
            BGRunner.emitted := (results ++ [BGRunner.Done 0%Z])%list;
            BGRunner.at_ := BGRunner.Finished; BGRunner.world := w' |}.
Proof.
  intros Hreturns.
  destruct (run_finishes uploader_run Hreturns queue w0) as [Hfin _].
  pose proof (run_shape uploader_run queue w0) as Hshape.
  destruct (BGRunner.run uploader_run queue w0) as [[l c] w'] eqn:Hrun.
  cbn [fst snd] in Hfin. subst c.
  destruct Hshape as [Hshape _].
  destruct (Hshape eq_refl) as (results & Hl & Him & Hlen). subst l.
  exists results, w'. split; [reflexivity|]. split; [exact Him|]. split; [exact Hlen|].
  exact (run_reachable uploader_run w0 queue _ w' Hrun).
Qed.

Lemma bgrunner_run_drains_witness :
  exists results w',
    BGRunner.run Sim.uploads_ok [("77", "/in/a.tif"); ("77", "/in/b.tif")] tt
    = ((results ++ [BGRunner.Done 0%Z])%list, BGRunner.Finished, w')
    /\ BGRunner.images results = map snd [("77", "/in/a.tif"); ("77", "/in/b.tif")]
    /\ List.length results = List.length [("77", "/in/a.tif"); ("77", "/in/b.tif")]
    /\ BGRunner.reachable Sim.uploads_ok tt
         {| BGRunner.tasks := [];
            BGRunner.history := [("77", "/in/a.tif"); ("77", "/in/b.tif")];
            BGRunner.emitted := (results ++ [BGRunner.Done 0%Z])%list;
            BGRunner.at_ := BGRunner.Finished; BGRunner.world := w' |}.
Proof.
  apply (bgrunner_run_drains Sim.uploads_ok [("77", "/in/a.tif"); ("77", "/in/b.tif")] tt).
  intros hawb image w. exists 0%Z, w. reflexivity.
Defined.


(** X22: the worker may test the queue before the producer has put
    anything: it then emits [Done] alone and returns; and once [run]
    has returned, whatever is put on the queue stays there: no task is
    taken any more and no signal is emitted. *)
Theorem bgrunner_late_puts_are_stranded {W : Type}
        (uploader_run : string -> string -> W -> result Z * W) w0 task :
  BGRunner.reachable uploader_run w0
    {| BGRunner.tasks := [task]; BGRunner.history := [task];
       BGRunner.emitted := [BGRunner.Done 0%Z];
       BGRunner.at_ := BGRunner.Finished; BGRunner.world := w0 |}
  /\ forall s',
       clos_refl_trans_1n _ (BGRunner.step uploader_run)
         {| BGRunner.tasks := [task]; BGRunner.history := [task];
            BGRunner.emitted := [BGRunner.Done 0%Z];
            BGRunner.at_ := BGRunner.Finished; BGRunner.world := w0 |} s' ->
       BGRunner.at_ s' = BGRunner.Finished
       /\ BGRunner.emitted s' = [BGRunner.Done 0%Z]
       /\ exists more, BGRunner.tasks s' = task :: more.
Proof.
  split.
  - pose proof (BGRunner.reach_initial uploader_run w0) as R.
    pose proof (BGRunner.reach_step uploader_run w0 _ _ R
                  (BGRunner.step_break uploader_run (BGRunner.initial w0) eq_refl eq_refl))
      as R1.
    exact (BGRunner.reach_step uploader_run w0 _ _ R1
             (BGRunner.step_put uploader_run _ task)).
  - intros s' Hsteps.
    destruct (finished_steps uploader_run _ s' Hsteps eq_refl) as (Hfin & Hem & more & Htasks).
    split; [exact Hfin|]. split; [exact Hem|]. exists more. exact Htasks.
Qed.

(** ** Namer, continued *)

Section MarkerFacts.

(** An ASCII digit is a decimal digit of one byte, and a dot is none. *)
Lemma digit_width_ascii c s : PyStr.is_digit c = true -> Re.digit_width (String c s) = 1.
Proof.
  destruct c as [[] [] [] [] [] [] [] []]; try discriminate; intros _;
    destruct s; vm_compute; reflexivity.
Qed.

Lemma digit_width_dot s : Re.digit_width (String "."%char s) = 0.
Proof. vm_compute. reflexivity. Qed.

Lemma digits_from_append digits rest :
  all_digits digits = true ->
  Re.digits_from 0 (digits ++ String "."%char rest) = repeat 1 (String.length digits).
Proof.
  intros Hd. induction digits as [|d digits IH]; cbn [append String.length repeat].
  - rewrite digits_from_unfold, digit_width_dot. reflexivity.
  - cbn [all_digits] in Hd. apply andb_true_iff in Hd as [Hd1 Hd2].
    rewrite digits_from_unfold, (digit_width_ascii _ _ Hd1).
    cbn [PyStr.drop]. rewrite (IH Hd2). reflexivity.
Qed.

Lemma list_sum_ones n : list_sum (firstn n (repeat 1 n)) = n.
Proof.
  rewrite firstn_all2 by (rewrite repeat_length; lia).
  induction n as [|n IH]; [reflexivity|].
  cbn [repeat list_sum fold_right]. unfold list_sum in IH. rewrite IH. reflexivity.
Qed.

(** The marker is matched where it stands. *)
Lemma match_marker digits :
  all_digits digits = true ->
  1 <= String.length digits <= 6 ->
  Re.match_here page_pattern ("_page" ++ digits ++ ".tif") = Some (5 + String.length digits).
Proof.
  intros Hd Hlen. unfold page_pattern. cbn [Re.match_here].
  rewrite startswith_append.
  cbn [String.length append PyStr.drop option_map].
  change (String "." "tif") with (String "."%char "tif").
  unfold Re.count_digits, Re.digit_bytes.
  rewrite (digits_from_append digits "tif" Hd), repeat_length.
  rewrite (Nat.min_r 6 (String.length digits)) by lia.
  destruct (String.length digits) as [|n] eqn:Hn; [lia|].
  cbn [Re.try_counts Nat.ltb Nat.leb].
  rewrite list_sum_ones, <- Hn, drop_append.
  change (PyStr.startswith ".tif" "_page") with false.
  cbn [Re.match_here option_map]. rewrite Nat.add_0_r. reflexivity.
Qed.

Lemma search_skips base rest g :
  free_of "_"%char base = true ->
  Re.match_here page_pattern rest = Some g ->
  Re.search page_pattern (base ++ rest) = Some (PyStr.take g rest).
Proof.
  intros Hfree Hmatch. induction base as [|c base IH]; cbn [append].
  - destruct rest as [|r rest']; cbn [Re.search]; rewrite Hmatch; reflexivity.
  - cbn [free_of] in Hfree. apply andb_true_iff in Hfree as [Hc Hfree].
    cbn [Re.search].
    assert (Hnone : Re.match_here page_pattern (String c (base ++ rest)) = None).
    { unfold page_pattern. cbn [Re.match_here]. unfold PyStr.startswith. cbn [String.prefix].
      destruct (ascii_dec "_" c) as [Heq|Hne]; [|reflexivity].
      subst c. discriminate. }
    rewrite Hnone. exact (IH Hfree).
Qed.

End MarkerFacts.

(** X29: a file name of the shape that [get_page_images] gives to a
    page, a base name without underscore, then [_page], one to six
    digits and [.tif], carries its marker into the new name:
    [page_search] finds exactly [_page] with these digits. *)
Theorem page_search_finds_marker base digits :
  free_of "_"%char base = true ->
  all_digits digits = true ->
  1 <= String.length digits <= 6 ->
  page_search (base ++ "_page" ++ digits ++ ".tif") = Some ("_page" ++ digits).
Proof.
  intros Hfree Hd Hlen. unfold page_search.
  rewrite (search_skips base _ _ Hfree (match_marker digits Hd Hlen)).
  cbn [Nat.add PyStr.take append]. rewrite take_append. reflexivity.
Qed.

Lemma page_search_finds_marker_witness :
  page_search ("doc" ++ "_page" ++ "12" ++ ".tif") = Some ("_page" ++ "12").
Proof.
  apply (page_search_finds_marker "doc" "12").
  - reflexivity.
  - reflexivity.
  - cbn. lia.
Defined.

(** ** PdfExpander and the entry point *)

Section ShellFacts.
Context {P : Platform} {Sh : Shell P}.

Lemma saved_pages_app t1 t2 : saved_pages (t1 ++ t2) = (saved_pages t1 ++ saved_pages t2)%list.
Proof.
  induction t1 as [|ev t1 IH]; [reflexivity|].
  destruct ev; cbn [app saved_pages]; rewrite IH; reflexivity.
Qed.

Lemma saved_pages_core t : saved_pages (map Core t) = [].
Proof. induction t as [|ev t IH]; [reflexivity|exact IH]. Qed.

(** The pages are saved under consecutive numbers, up to the first
    that cannot be saved. *)
Lemma save_pages_shape images_directory basename images :
  forall index w,
  exists k,
    k <= List.length images
    /\ snd (save_pages images_directory basename index images w)
       = map (fun i => PageSave (page_path images_directory basename i)) (seq index k)
    /\ (fst (fst (save_pages images_directory basename index images w)) = Ret tt ->
        k = List.length images).
Proof.
  induction images as [|image rest IH]; intros index w.
  - exists 0. repeat split. apply Nat.le_refl.
  - cbn [save_pages]. unfold sbind, scall.
    destruct (page_save image (page_path images_directory basename index) w)
      as [[[]|e] w1].
    + destruct (IH (S index) w1) as (k & Hk & Htrace & Hret).
      destruct (save_pages images_directory basename (S index) rest w1)
        as [[r w2] t2].
      cbn [fst snd] in *. exists (S k). split; [cbn; lia|]. split.
      * cbn [seq map app]. rewrite Htrace. reflexivity.
      * intros Hr. rewrite (Hret Hr). reflexivity.
    + exists 1. cbn. split; [lia|]. split; [reflexivity|discriminate].
Qed.

Lemma saved_pages_of_saves (f : nat -> string) l :
  saved_pages (map (fun i => PageSave (f i)) l) = map f l.
Proof. induction l as [|i l IH]; [reflexivity|]. cbn. rewrite IH. reflexivity. Qed.

(** Preparing the directory saves no page. *)
Lemma reset_directory_saves_nothing images_directory w :
  saved_pages (snd (reset_directory images_directory w)) = [].
Proof.
  unfold reset_directory, sbind, makedirs_unless_exists, removedirs_errno, makedirs, sret,
    lift, call.
  destruct (os_makedirs images_directory w) as [[|e0|e0] w1]; try reflexivity.
  destruct (os_removedirs images_directory w1) as [[|errno e1|e1] w2]; try reflexivity.
  - destruct (os_makedirs images_directory w2) as [[|e2|e2] w3]; reflexivity.
  - destruct (errno =? 39)%Z.
    + destruct (shutil_rmtree images_directory w2) as [[[]|e2] w3]; try reflexivity.
      destruct (os_makedirs images_directory w3) as [[|e3|e3] w4]; reflexivity.
    + destruct (os_makedirs images_directory w2) as [[|e2|e2] w3]; reflexivity.
Qed.

Lemma write_pages_shape images_directory basename images w :
  exists k,
    k <= List.length images
    /\ saved_pages (snd (write_pages images_directory basename images w))
       = map (page_path images_directory basename) (seq 0 k)
    /\ (forall d, fst (fst (write_pages images_directory basename images w)) = Ret (Some d) ->
                  d = images_directory /\ k = List.length images).
Proof.
  destruct (save_pages_shape images_directory basename images 0 w) as (k & Hk & Htrace & Hret).
  exists k. split; [exact Hk|].
  unfold write_pages, stry, sbind.
  destruct (save_pages images_directory basename 0 images w) as [[[[]|e|] w1] t1];
    cbn [fst snd] in *; subst t1.
  - unfold sret. cbn [fst snd]. rewrite app_nil_r, saved_pages_of_saves.
    split; [reflexivity|]. intros d Hd. inversion Hd. split; [reflexivity|].
    apply Hret. reflexivity.
  - destruct (is_OSError e).
    + unfold lift, error, bind, emit, ret, sret. cbn [fst snd map app].
      rewrite saved_pages_app, saved_pages_of_saves. cbn [saved_pages].
      rewrite app_nil_r. split; [reflexivity|]. intros d Hd. discriminate.
    + cbn [fst snd]. rewrite saved_pages_of_saves.
      split; [reflexivity|]. intros d Hd. discriminate.
  - rewrite saved_pages_of_saves. split; [reflexivity|]. intros d Hd. discriminate.
Qed.

(** Once the pages are rendered, [get_page_images] prepares the
    directory and writes them. *)
Lemma get_page_images_rendered path w images w1 :
  convert_from_path path w = (Returned images, w1) ->
  get_page_images path w
  = (let '(r, w', t) :=
       (reset_directory (fst (OsPath.splitext path)) ~;;
        write_pages (fst (OsPath.splitext path))
                    (snd (OsPath.split (fst (OsPath.splitext path)))) images) w1 in
     (r, w', ConvertFromPath path :: t)).
Proof.
  intros Hconvert. unfold get_page_images, sbind at 1, scall. rewrite Hconvert.
  destruct ((reset_directory (fst (OsPath.splitext path)) ~;;
             write_pages (fst (OsPath.splitext path))
                         (snd (OsPath.split (fst (OsPath.splitext path)))) images) w1)
    as [[r w'] t].
  reflexivity.
Qed.

(** The loop makes exactly the saves that the platform lets it make. *)
Lemma save_pages_run images_directory basename index images w stop saves w' :
  page_saves images_directory basename index images w stop saves w' ->
  save_pages images_directory basename index images w
  = (match stop with Some e => Raise e | None => Ret tt end, w',
     map (fun i => PageSave (page_path images_directory basename i)) (seq index saves))
  /\ match stop with
     | None => saves = List.length images
     | Some _ => 1 <= saves <= List.length images
     end.
Proof.
  induction 1 as [index w | index image rest w w1 stop saves w2 Hsave _ [IHrun IHcount]
                  | index image rest w e w1 Hsave].
  - split; reflexivity.
  - cbn [save_pages]. unfold sbind, scall. rewrite Hsave, IHrun. split.
    + destruct stop; reflexivity.
    + destruct stop; cbn [List.length]; lia.
  - cbn [save_pages]. unfold sbind, scall. rewrite Hsave. split; [reflexivity|].
    cbn [List.length]. lia.
Qed.

End ShellFacts.

(** X23: once the pages of a PDF are rendered and their directory is
    prepared, [get_page_images] saves them in that directory as
    [<name>_page1.tif], [<name>_page2.tif] and so on, in the order of
    the pages and with no number left out.  When every save returns,
    all the pages are saved and the directory is returned.  The first
    save that raises is the last: no later page is tried; for an
    [OSError] the failure is reported and [None] is returned, and any
    other exception leaves [get_page_images]. *)
Theorem get_page_images_numbers_pages {P : Platform} {Sh : Shell P}
        path w images w1 w2 t2 stop saves w3 :
  let images_directory := fst (OsPath.splitext path) in
  let basename := snd (OsPath.split images_directory) in
  let written :=
    map (fun i => PageSave (page_path images_directory basename i)) (seq 0 saves) in
  convert_from_path path w = (Returned images, w1) ->
  reset_directory images_directory w1 = (Ret tt, w2, t2) ->
  page_saves images_directory basename 0 images w2 stop saves w3 ->
  get_page_images path w
  = match stop with
    | None =>
        (Ret (Some images_directory), w3, (ConvertFromPath path :: t2 ++ written)%list)
    | Some e =>
        if is_OSError e
        then (Ret None, w3,
              (ConvertFromPath path :: t2 ++ written
                 ++ [Core (Stderr "Cannot convert PDF pages into images");
                     Core (Stderr (repr e))])%list)
        else (Raise e, w3, (ConvertFromPath path :: t2 ++ written)%list)
    end
  /\ match stop with
     | None => saves = List.length images
     | Some _ => 1 <= saves <= List.length images
     end.
Proof.
  intros dir base written Hconvert Hreset Hsaves.
  destruct (save_pages_run dir base 0 images w2 stop saves w3 Hsaves) as [Hrun Hcount].
  split; [|exact Hcount].
  unfold get_page_images, sbind at 1, scall. rewrite Hconvert. fold dir. fold base.
  unfold sbind at 1. rewrite Hreset.
  unfold write_pages, stry, sbind. rewrite Hrun. fold written.
  destruct stop as [e|].
  - destruct (is_OSError e); [|reflexivity].
    unfold lift, error, bind, emit, ret, sret. cbn [map app negb]. reflexivity.
  - unfold sret. rewrite app_nil_r. reflexivity.
Qed.

Lemma get_page_images_numbers_pages_witness :
  get_page_images (Sh := SimShell.shell) "/in/doc.pdf" SimShell.fresh_pdf
  = (Ret (Some "/in/doc"),
     {| Sim.posix := true;
        Sim.files := [("/in/doc.pdf", Sim.Blob 2000); ("/in/doc", Sim.Dir);
                      ("/in/doc/doc_page1.tif", Sim.File 0 (850, 1100)%Z);
                      ("/in/doc/doc_page2.tif", Sim.File 0 (850, 1100)%Z)];
        Sim.transport := [] |},
     [ConvertFromPath "/in/doc.pdf"; OsMakedirs "/in/doc";
      PageSave "/in/doc/doc_page1.tif"; PageSave "/in/doc/doc_page2.tif"])
  /\ 2 = List.length [(850, 1100)%Z; (850, 1100)%Z].
Proof.
  apply (get_page_images_numbers_pages (Sh := SimShell.shell) "/in/doc.pdf"
           SimShell.fresh_pdf [(850, 1100)%Z; (850, 1100)%Z] SimShell.fresh_pdf
           {| Sim.posix := true;
              Sim.files := [("/in/doc.pdf", Sim.Blob 2000); ("/in/doc", Sim.Dir)];
              Sim.transport := [] |}
           [OsMakedirs "/in/doc"] None 2).
  - reflexivity.
  - reflexivity.
  - apply (saves_next (Sh := SimShell.shell) _ _ _ _ _ _
             {| Sim.posix := true;
                Sim.files := [("/in/doc.pdf", Sim.Blob 2000); ("/in/doc", Sim.Dir);
                              ("/in/doc/doc_page1.tif", Sim.File 0 (850, 1100)%Z)];
                Sim.transport := [] |}); [reflexivity|].
    apply (saves_next (Sh := SimShell.shell) _ _ _ _ _ _
             {| Sim.posix := true;
                Sim.files := [("/in/doc.pdf", Sim.Blob 2000); ("/in/doc", Sim.Dir);
                              ("/in/doc/doc_page1.tif", Sim.File 0 (850, 1100)%Z);
                              ("/in/doc/doc_page2.tif", Sim.File 0 (850, 1100)%Z)];
                Sim.transport := [] |}); [reflexivity|].
    apply (saves_done (Sh := SimShell.shell)).
Defined.

(** X24: a directory of pages that exists already and is not empty is
    removed with all it holds, and made again, before the first page
    is written. *)
Theorem get_page_images_resets_directory {P : Platform} {Sh : Shell P}
        path w images w1 e0 w2 e1 w3 w4 w5 :
  let images_directory := fst (OsPath.splitext path) in
  convert_from_path path w = (Returned images, w1) ->
  os_makedirs images_directory w1 = (DirsExist e0, w2) ->
  os_removedirs images_directory w2 = (RemovedirsOSError 39 e1, w3) ->
  shutil_rmtree images_directory w3 = (Returned tt, w4) ->
  os_makedirs images_directory w4 = (DirsMade, w5) ->
  get_page_images path w
  = (let '(r, w', t) :=
       write_pages images_directory (snd (OsPath.split images_directory)) images w5 in
     (r, w',
      ([ConvertFromPath path; OsMakedirs images_directory; OsRemovedirs images_directory;
        Core (ShutilRmtree images_directory); OsMakedirs images_directory] ++ t)%list)).
Proof.
  intros dir Hconvert Hexists Hremove Hclear Hmade.
  unfold get_page_images, sbind at 1, scall. rewrite Hconvert. fold dir.
  unfold sbind at 1.
  unfold reset_directory, sbind, makedirs_unless_exists, removedirs_errno, makedirs, sret,
    lift, call.
  rewrite Hexists, Hremove. cbn [Z.eqb Pos.eqb]. rewrite Hclear, Hmade.
  destruct (write_pages dir (snd (OsPath.split dir)) images w5) as [[r w'] t].
  reflexivity.
Qed.

(** X25: when the name of the directory is taken and [os.removedirs]
    fails for another reason than a directory that is not empty,
    nothing is cleared: the second [os.makedirs] raises, its exception
    leaves [get_page_images], and no page is written. *)
Theorem get_page_images_name_taken {P : Platform} {Sh : Shell P}
        path w images w1 e0 w2 errno e1 w3 e2 w4 :
  let images_directory := fst (OsPath.splitext path) in
  convert_from_path path w = (Returned images, w1) ->
  os_makedirs images_directory w1 = (DirsExist e0, w2) ->
  os_removedirs images_directory w2 = (RemovedirsOSError errno e1, w3) ->
  errno <> 39%Z ->
  os_makedirs images_directory w3 = (DirsExist e2, w4) ->
  get_page_images path w
  = (Raise e2, w4,
     [ConvertFromPath path; OsMakedirs images_directory; OsRemovedirs images_directory;
      OsMakedirs images_directory]).
Proof.
  intros dir Hconvert Hexists Hremove Herrno Hagain.
  apply Z.eqb_neq in Herrno.
  unfold get_page_images, sbind at 1, scall. rewrite Hconvert. fold dir.
  unfold sbind at 1.
  unfold reset_directory, sbind, makedirs_unless_exists, removedirs_errno, makedirs, sret.
  rewrite Hexists, Hremove, Herrno, Hagain. reflexivity.
Qed.

(** X26: when a page cannot be saved for an [OSError],
    [get_page_images] reports it and returns [None]; it does nothing
    after the save that failed, so the pages written before it are
    left where they are. *)
Theorem get_page_images_save_fails {P : Platform} {Sh : Shell P}
        path w images w1 w2 t2 e w3 t3 :
  let images_directory := fst (OsPath.splitext path) in
  convert_from_path path w = (Returned images, w1) ->
  reset_directory images_directory w1 = (Ret tt, w2, t2) ->
  save_pages images_directory (snd (OsPath.split images_directory)) 0 images w2
  = (Raise e, w3, t3) ->
  is_OSError e = true ->
  get_page_images path w
  = (Ret None, w3,
     (ConvertFromPath path :: t2 ++ t3
        ++ [Core (Stderr "Cannot convert PDF pages into images"); Core (Stderr (repr e))])%list).
Proof.
  intros dir Hconvert Hreset Hsave Hos.
  unfold get_page_images, sbind at 1, scall. rewrite Hconvert. fold dir.
  unfold sbind at 1. rewrite Hreset.
  unfold write_pages, stry, sbind. rewrite Hsave, Hos.
  unfold lift, error, bind, emit, ret, sret. cbn [map app negb]. reflexivity.
Qed.

Lemma get_page_images_resets_directory_witness :
  get_page_images (Sh := SimShell.shell) "/in/doc.pdf" SimShell.expanded_before
  = (Ret (Some "/in/doc"),
     {| Sim.posix := true;
        Sim.files := [("/in/doc.pdf", Sim.Blob 2000); ("/in/doc", Sim.Dir);
                      ("/in/doc/doc_page1.tif", Sim.File 0 (850, 1100)%Z);
                      ("/in/doc/doc_page2.tif", Sim.File 0 (850, 1100)%Z)];
        Sim.transport := [] |},
     [ConvertFromPath "/in/doc.pdf"; OsMakedirs "/in/doc"; OsRemovedirs "/in/doc";
      Core (ShutilRmtree "/in/doc"); OsMakedirs "/in/doc";
      PageSave "/in/doc/doc_page1.tif"; PageSave "/in/doc/doc_page2.tif"]).
Proof.
  apply (get_page_images_resets_directory (Sh := SimShell.shell) "/in/doc.pdf"
           SimShell.expanded_before [(850, 1100)%Z; (850, 1100)%Z] SimShell.expanded_before
           (OSError "FileExistsError") SimShell.expanded_before
           (OSError "ENOTEMPTY") SimShell.expanded_before
           SimShell.fresh_pdf
           {| Sim.posix := true;
              Sim.files := [("/in/doc.pdf", Sim.Blob 2000); ("/in/doc", Sim.Dir)];
              Sim.transport := [] |}).
  - reflexivity.
  - reflexivity.
  - reflexivity.
  - reflexivity.
  - reflexivity.
Defined.

Lemma get_page_images_name_taken_witness :
  get_page_images (Sh := SimShell.shell) "/in/doc.pdf" SimShell.file_in_the_way
  = (Raise (OSError "FileExistsError"), SimShell.file_in_the_way,
     [ConvertFromPath "/in/doc.pdf"; OsMakedirs "/in/doc"; OsRemovedirs "/in/doc";
      OsMakedirs "/in/doc"]).
Proof.
  apply (get_page_images_name_taken (Sh := SimShell.shell) "/in/doc.pdf"
           SimShell.file_in_the_way [(850, 1100)%Z; (850, 1100)%Z] SimShell.file_in_the_way
           (OSError "FileExistsError") SimShell.file_in_the_way
           20%Z (OSError "NotADirectoryError") SimShell.file_in_the_way).
  - reflexivity.
  - reflexivity.
  - reflexivity.
  - discriminate.
  - reflexivity.
Defined.

Lemma get_page_images_save_fails_witness :
  get_page_images (Sh := SimShell.shell) "/in/doc.pdf" SimShell.page_blocked
  = (Ret None,
     {| Sim.posix := true;
        Sim.files := [("/in/doc.pdf", Sim.Blob 2000);
                      ("/in/doc/doc_page2.tif", Sim.Dir);
                      ("/in/doc", Sim.Dir);
                      ("/in/doc/doc_page1.tif", Sim.File 0 (850, 1100)%Z)];
        Sim.transport := [] |},
     [ConvertFromPath "/in/doc.pdf"; OsMakedirs "/in/doc";
      PageSave "/in/doc/doc_page1.tif"; PageSave "/in/doc/doc_page2.tif";
      Core (Stderr "Cannot convert PDF pages into images");
      Core (Stderr (repr (OSError "IsADirectoryError")))]).
Proof.
  apply (get_page_images_save_fails (Sh := SimShell.shell) "/in/doc.pdf"
           SimShell.page_blocked [(850, 1100)%Z; (850, 1100)%Z] SimShell.page_blocked
           {| Sim.posix := true;
              Sim.files := [("/in/doc.pdf", Sim.Blob 2000);
                            ("/in/doc/doc_page2.tif", Sim.Dir);
                            ("/in/doc", Sim.Dir)];
              Sim.transport := [] |}
           [OsMakedirs "/in/doc"]
           (OSError "IsADirectoryError")
           {| Sim.posix := true;
              Sim.files := [("/in/doc.pdf", Sim.Blob 2000);
                            ("/in/doc/doc_page2.tif", Sim.Dir);
                            ("/in/doc", Sim.Dir);
                            ("/in/doc/doc_page1.tif", Sim.File 0 (850, 1100)%Z)];
              Sim.transport := [] |}
           [PageSave "/in/doc/doc_page1.tif"; PageSave "/in/doc/doc_page2.tif"]).
  - reflexivity.
  - reflexivity.
  - reflexivity.
  - reflexivity.
Defined.

(** X27: when the pages of a PDF cannot be written,
    [get_page_images] returns [None] and [run] goes on to ask whether
    [None] is a directory: a [TypeError] leaves [run], which returns no
    code. *)
Theorem run_raises_when_pdf_fails {P : Platform} {Sh : Shell P} depth self w w1 t1 :
  let path := os_path_abspath (original_image_path self) w in
  os_path_exists path w = true ->
  PyStr.endswith (PyStr.lower path) ".pdf" = true ->
  get_page_images path w = (Ret None, w1, t1) ->
  run depth self w
  = (Raise (OtherError "TypeError"), w1,
     ((if negb (silent self) then [DisableControls] else []) ++ t1)%list).
Proof.
  intros path Hexists Hpdf Hpages.
  unfold run, sbind, sread. fold path. rewrite Hexists. cbn [negb]. rewrite Hpdf.
  destruct (silent self); cbn [negb]; unfold semit, sret, sraise; rewrite Hpages;
    cbn [app]; rewrite ?app_nil_r; reflexivity.
Qed.

Lemma run_raises_when_pdf_fails_witness :
  run (Sh := SimShell.shell) 1 (SimShell.uploader_for "/in/doc.pdf" true) SimShell.page_blocked
  = (Raise (OtherError "TypeError"),
     {| Sim.posix := true;
        Sim.files := [("/in/doc.pdf", Sim.Blob 2000);
                      ("/in/doc/doc_page2.tif", Sim.Dir);
                      ("/in/doc", Sim.Dir);
                      ("/in/doc/doc_page1.tif", Sim.File 0 (850, 1100)%Z)];
        Sim.transport := [] |},
     [ConvertFromPath "/in/doc.pdf"; OsMakedirs "/in/doc";
      PageSave "/in/doc/doc_page1.tif"; PageSave "/in/doc/doc_page2.tif";
      Core (Stderr "Cannot convert PDF pages into images");
      Core (Stderr "OSError(IsADirectoryError)")]).
Proof.
  apply (run_raises_when_pdf_fails (Sh := SimShell.shell) 1
           (SimShell.uploader_for "/in/doc.pdf" true) SimShell.page_blocked).
  - reflexivity.
  - reflexivity.
  - reflexivity.
Defined.

(** X28: [run] on a path with nothing to upload.  A path that does not
    exist is reported and [run] returns 1, having touched nothing.  A
    path that exists and is neither a PDF, nor a directory, nor a file
    makes [run] return 1 without any report; in attended mode the
    controls of the window were disabled by then, and they are not
    enabled again. *)
Theorem run_without_work {P : Platform} {Sh : Shell P} depth self w :
  let path := os_path_abspath (original_image_path self) w in
  (os_path_exists path w = false ->
   run depth self w
   = (Ret (1%Z, self), w,
      [Core (if negb (silent self) then QErrorMessage ("Does not exist: " ++ path)
             else Stderr ("Does not exist: " ++ path))]))
  /\ (os_path_exists path w = true ->
      PyStr.endswith (PyStr.lower path) ".pdf" = false ->
      os_path_isdir path w = false ->
      os_path_isfile path w = false ->
      run depth self w
      = (Ret (1%Z, self), w, if negb (silent self) then [DisableControls] else [])).
Proof.
  intros path. split.
  - intros Hmissing. unfold run, sbind, sread. fold path. rewrite Hmissing. cbn [negb].
    unfold lift, error, bind, emit, ret, sret. destruct (silent self); reflexivity.
  - intros Hexists Hpdf Hdir Hfile.
    unfold run, sbind, sread. fold path. rewrite Hexists. cbn [negb]. rewrite Hpdf.
    destruct (silent self); cbn [negb]; unfold semit, sret; rewrite Hdir, Hfile; reflexivity.
Qed.

(** A PDF of two pages, from the entry point to the queue: the pages
    are written, renamed with their markers, and queued. *)
Example run_expands_pdf :
  let '(r, _, t) :=
    run (Sh := SimShell.shell) 1 (SimShell.uploader_for "/in/doc.pdf" false)
        SimShell.fresh_pdf in
  option_map (fun x => tasks_queue (snd x))
             (match r with Ret x => Some x | _ => None end)
  = Some [("77", "/in/doc/h77-20180307-090542_page1.tif");
          ("77", "/in/doc/h77-20180307-090542_page2.tif")]
  /\ saved_pages t = ["/in/doc/doc_page1.tif"; "/in/doc/doc_page2.tif"].
Proof. vm_compute. split; reflexivity. Qed.
